(** * content-manager: the checkout / checkin round trip

    A shallow embedding of the two source files of the repository:
    - [src/github-client.ts]: the class [GitHubClient] (checkout, checkin,
      createFile, listFiles) wrapping the Octokit REST client;
    - the command surface (the [commander] program with the actions
      [checkout], [checkin] and [update]).

    JavaScript strings are modelled by [string]; the string operations
    used by the program ([+], [split], [join], [substring], [===]) only
    compare and move characters, so the model is exact on every text
    that the 8-bit characters of [string] can hold.

    What surrounds the process is explicit state: the environment, the
    local files (a map from the path as written to the text; directories,
    permissions and failing writes are left out), the clock, the remote
    repository behind the Octokit client, the requests sent to it, and the
    two console streams.  The remote API and the functions of the Node
    runtime are not code of the repository: the program is modelled over
    any remote ([Octokit]) and any runtime ([Runtime]). *)

From Stdlib Require Import String Ascii List Bool Arith Lia.
From stdpp Require Import base option gmap strings pretty.
Import ListNotations.
Local Open Scope string_scope.

(** ** JavaScript values used by the program *)

(** An optional property or command-line option: [None] is [undefined]. *)
Definition is_empty (s : string) : bool :=
  match s with EmptyString => true | String _ _ => false end.

(** Truthiness of an optional string: [undefined] and the empty string are
    the two falsy values. *)
Definition truthy (o : option string) : bool :=
  match o with
  | Some s => negb (is_empty s)
  | None => false
  end.

(** [o || d] for an optional string [o] and a string [d]. *)
Definition or_else (o : option string) (d : string) : string :=
  match o with
  | Some s => if is_empty s then d else s
  | None => d
  end.

(** [a || b] where both sides may be [undefined]. *)
Definition or_opt (a b : option string) : option string :=
  if truthy a then a else b.

(** A double quote, for the messages that quote a path. *)
Definition dq : string := String (ascii_of_nat 34) EmptyString.

(** The line feed of the template strings. *)
Definition nl : string := String (ascii_of_nat 10) EmptyString.

(** *** [String.prototype.split] with a non-empty separator, and
    [Array.prototype.join] *)

(** [split_from sep skip s] scans [s] from the left.  [skip] counts the
    characters of a separator occurrence that are still to be dropped; the
    head of the result is the piece under construction. *)
Fixpoint split_from (sep : string) (skip : nat) (s : string) : list string :=
  match s with
  | EmptyString => [EmptyString]
  | String c s' =>
      match skip with
      | S k => split_from sep k s'
      | O =>
          if String.prefix sep s
          then EmptyString :: split_from sep (String.length sep - 1) s'
          else match split_from sep 0 s' with
               | piece :: pieces => String c piece :: pieces
               | [] => [String c EmptyString]
               end
      end
  end.

(** [s.split(sep)] for [sep] a non-empty string. *)
Definition split (sep s : string) : list string := split_from sep 0 s.

(** [pieces.join(glue)]. *)
Fixpoint join (glue : string) (pieces : list string) : string :=
  match pieces with
  | [] => EmptyString
  | [p] => p
  | p :: ps => p ++ glue ++ join glue ps
  end.

(** *** The reading of find/replace in the specification

    "Literal find/replace (exact substring match, all non-overlapping
    occurrences)": scan from the left; at an occurrence of [find] emit
    [replace] and resume after the occurrence, otherwise copy one
    character.  [drop] characters of a matched occurrence are passed over. *)
Fixpoint replace_from (find replace : string) (drop : nat) (s : string) : string :=
  match s with
  | EmptyString => EmptyString
  | String c s' =>
      match drop with
      | S k => replace_from find replace k s'
      | O =>
          if String.prefix find s
          then replace ++ replace_from find replace (String.length find - 1) s'
          else String c (replace_from find replace 0 s')
      end
  end.

Definition replace_all (find replace s : string) : string :=
  replace_from find replace 0 s.

(** ** Errors, promises and the data of the Octokit client *)

(** A JavaScript error as the program observes it: the [message], and the
    HTTP [status] that Octokit's request errors carry.  [new Error(msg)] has
    no status. *)
Record Error := mkError { status : option nat; message : string }.

Definition new_Error (msg : string) : Error := mkError None msg.

(** A settled promise. *)
Inductive promise (A : Type) : Type :=
| Fulfilled (a : A)
| Rejected (e : Error).
Arguments Fulfilled {A} a.
Arguments Rejected {A} e.

(** One object of [response.data] of [repos.getContent]: the [content] and
    [encoding] properties are optional. *)
Record ContentItem := mkItem {
  item_type : string;
  item_path : string;
  item_sha : string;
  item_content : option string;
  item_encoding : option string }.

(** [response.data] of [repos.getContent]: an array for a directory, a
    single object otherwise. *)
Inductive ContentData :=
| DataArray (items : list ContentItem)
| DataObject (item : ContentItem).

(** [response.data.commit] of [repos.createOrUpdateFileContents]. *)
Record Commit := mkCommit {
  commit_sha : option string;
  commit_html_url : option string;
  commit_message : option string }.

Record GetContentParams := mkGetContentParams {
  gc_owner : string;
  gc_repo : string;
  gc_path : string;
  gc_ref : string }.

Record UpdateParams := mkUpdateParams {
  up_owner : string;
  up_repo : string;
  up_path : string;
  up_message : string;
  up_content : string;
  up_sha : option string;
  up_branch : string }.

(** The requests that leave the process. *)
Inductive RemoteCall :=
| CallGetContent (p : GetContentParams)
| CallCreateOrUpdate (p : UpdateParams).

(** The remote API behind Octokit, over a remote state [R].  [auth] is the
    token the client was built with.  Reading does not change the remote. *)
Class Octokit (R : Type) := {
  repos_getContent : string -> GetContentParams -> R -> promise ContentData;
  repos_createOrUpdateFileContents :
    string -> UpdateParams -> R -> promise Commit * R }.

(** ** The interfaces of [github-client.ts] *)

Record FileContent := mkFileContent {
  fc_content : string;
  fc_sha : string;
  fc_path : string;
  fc_encoding : string }.

Record CommitResult := mkCommitResult {
  cr_sha : string;
  cr_url : string;
  cr_message : string }.

(** The sidecar [<file>.meta.json] as the commands write it: [checkout]
    stores [path], [sha], [branch] and [checkedOutAt]; [checkin] adds
    [lastCommit] and [lastUpdatedAt].  [branch] is optional because
    [checkin] itself provides for its absence. *)
Record Meta := mkMeta {
  meta_path : string;
  meta_sha : string;
  meta_branch : option string;
  meta_checkedOutAt : string;
  meta_lastCommit : option string;
  meta_lastUpdatedAt : option string }.

(** The functions of the Node runtime that the program calls and that are
    not part of the repository:
    - [base64_decode s] is [Buffer.from(s, "base64").toString("utf-8")],
    - [base64_encode s] is [Buffer.from(s).toString("base64")],
    - [JSON_parse] is [JSON.parse] on a sidecar (it throws on malformed text),
    - [JSON_stringify m] is [JSON.stringify(m, null, 2)],
    - [path_basename] is [path.basename]. *)
Class Runtime := {
  base64_decode : string -> string;
  base64_encode : string -> string;
  JSON_parse : string -> promise Meta;
  JSON_stringify : Meta -> string;
  path_basename : string -> string }.

(** ** The process and its surroundings *)

Record World (R : Type) := mkWorld {
  w_env : gmap string string;      (* process.env *)
  w_fs : gmap string string;       (* local files: path to text *)
  w_now : string;                  (* new Date().toISOString() *)
  w_remote : R;                    (* the repository behind the API *)
  w_calls : list RemoteCall;       (* requests sent so far, oldest first *)
  w_stdout : list string;          (* console.log lines *)
  w_stderr : list string }.        (* console.error lines *)
Arguments mkWorld {R}.
Arguments w_env {R}.
Arguments w_fs {R}.
Arguments w_now {R}.
Arguments w_remote {R}.
Arguments w_calls {R}.
Arguments w_stdout {R}.
Arguments w_stderr {R}.

(** The updates of a world that the primitive effects make. *)
Definition print_out {R} (line : string) (w : World R) : World R :=
  mkWorld (w_env w) (w_fs w) (w_now w) (w_remote w) (w_calls w)
          (w_stdout w ++ [line]) (w_stderr w).

Definition print_err {R} (line : string) (w : World R) : World R :=
  mkWorld (w_env w) (w_fs w) (w_now w) (w_remote w) (w_calls w)
          (w_stdout w) (w_stderr w ++ [line]).

Definition write_file {R} (path data : string) (w : World R) : World R :=
  mkWorld (w_env w) (<[path := data]> (w_fs w)) (w_now w) (w_remote w)
          (w_calls w) (w_stdout w) (w_stderr w).

(** A request was sent and left the remote in state [remote]. *)
Definition sent {R} (call : RemoteCall) (remote : R) (w : World R) : World R :=
  mkWorld (w_env w) (w_fs w) (w_now w) remote (w_calls w ++ [call])
          (w_stdout w) (w_stderr w).

(** How a computation ends: with a value, with a thrown error, or with
    [process.exit(code)]. *)
Inductive outcome (A : Type) : Type :=
| Return (a : A)
| Throw (e : Error)
| Exit (code : nat).
Arguments Return {A} a.
Arguments Throw {A} e.
Arguments Exit {A} code.

Module Proc.

Definition M (R A : Type) : Type := World R -> outcome A * World R.

Definition ret {R A} (a : A) : M R A := fun w => (Return a, w).

Definition bind {R A B} (m : M R A) (k : A -> M R B) : M R B :=
  fun w =>
    match m w with
    | (Return a, w') => k a w'
    | (Throw e, w') => (Throw e, w')
    | (Exit c, w') => (Exit c, w')
    end.

Definition throw {R A} (e : Error) : M R A := fun w => (Throw e, w).

(** [process.exit(code)]: nothing after it runs, no handler sees it. *)
Definition exit {R A} (code : nat) : M R A := fun w => (Exit code, w).

(** [try { body } catch (error) { handler }]. *)
Definition try_catch {R A} (body : M R A) (handler : Error -> M R A) : M R A :=
  fun w =>
    match body w with
    | (Throw e, w') => handler e w'
    | r => r
    end.

End Proc.
Import Proc.

Notation "x <- m ;; k" := (bind m (fun x => k))
  (at level 100, m at next level, right associativity, only parsing).
Notation "m ;;; k" := (bind m (fun _ => k))
  (at level 100, right associativity, only parsing).

Section Program.

Context {RT : Runtime} {R : Type} {OK : Octokit R}.

(** *** Primitive effects *)

Definition console_log (line : string) : M R unit :=
  fun w => (Return tt, print_out line w).

Definition console_error (line : string) : M R unit :=
  fun w => (Return tt, print_err line w).

(** [process.env[name]]. *)
Definition process_env (name : string) : M R (option string) :=
  fun w => (Return (w_env w !! name), w).

(** [new Date().toISOString()]. *)
Definition Date_now_toISOString : M R string :=
  fun w => (Return (w_now w), w).

Definition fs_existsSync (path : string) : M R bool :=
  fun w => (Return (match w_fs w !! path with Some _ => true | None => false end), w).

(** [fs.readFileSync(path, "utf-8")]; reading a missing file throws. *)
Definition fs_readFileSync (path : string) : M R string :=
  fun w =>
    match w_fs w !! path with
    | Some text => (Return text, w)
    | None =>
        (Throw (new_Error ("ENOENT: no such file or directory, open '" ++ path ++ "'")), w)
    end.

Definition fs_writeFileSync (path data : string) : M R unit :=
  fun w => (Return tt, write_file path data w).

(** [JSON.parse(text)]: a syntax error is thrown. *)
Definition JSON_parse_M (text : string) : M R Meta :=
  fun w =>
    match JSON_parse text with
    | Fulfilled m => (Return m, w)
    | Rejected e => (Throw e, w)
    end.

(** [await this.octokit.repos.getContent(p)]: the request is sent, and a
    rejected promise is thrown at the [await]. *)
Definition octokit_repos_getContent (auth : string) (p : GetContentParams)
  : M R ContentData :=
  fun w =>
    let w' := sent (CallGetContent p) (w_remote w) w in
    match repos_getContent auth p (w_remote w) with
    | Fulfilled data => (Return data, w')
    | Rejected e => (Throw e, w')
    end.

(** [await this.octokit.repos.createOrUpdateFileContents(p)]. *)
Definition octokit_repos_createOrUpdateFileContents (auth : string)
  (p : UpdateParams) : M R Commit :=
  fun w =>
    let (answer, remote') := repos_createOrUpdateFileContents auth p (w_remote w) in
    let w' := sent (CallCreateOrUpdate p) remote' w in
    match answer with
    | Fulfilled commit => (Return commit, w')
    | Rejected e => (Throw e, w')
    end.

(** ** [class GitHubClient] *)

(** The private fields; [octokit] is [new Octokit({ auth: token })]. *)
Record GitHubClient := mkGitHubClient {
  this_token : string;
  this_owner : string;
  this_repo : string }.

(** [checkout(path, branch)], lines 30-67. *)
Definition checkout (this : GitHubClient) (path branch : string) : M R FileContent :=
  try_catch
    (data <- octokit_repos_getContent (this_token this)
               (mkGetContentParams (this_owner this) (this_repo this) path branch) ;;
     match data with
     | DataArray _ =>
         throw (new_Error ("Path " ++ dq ++ path ++ dq ++ " is a directory, not a file"))
     | DataObject data =>
         if negb (item_type data =? "file")
         then throw (new_Error ("Path " ++ dq ++ path ++ dq ++ " is not a file (type: "
                                  ++ item_type data ++ ")"))
         else
           match item_content data with
           | Some encoded =>
               if is_empty encoded
               then throw (new_Error ("No content found for file " ++ dq ++ path ++ dq))
               else
                 let content := base64_decode encoded in
                 ret (mkFileContent content (item_sha data) (item_path data)
                        (or_else (item_encoding data) "base64"))
           | None =>
               throw (new_Error ("No content found for file " ++ dq ++ path ++ dq))
           end
     end)
    (fun error =>
       if bool_decide (status error = Some 404)
       then throw (new_Error ("File not found: " ++ path))
       else throw error).

(** The object built from [response.data.commit] by [checkin] and
    [createFile]. *)
Definition commit_result (commit : Commit) (message : string) : CommitResult :=
  mkCommitResult (or_else (commit_sha commit) EmptyString)
                 (or_else (commit_html_url commit) EmptyString)
                 (or_else (commit_message commit) message).

(** [checkin(path, content, message, sha, branch)], lines 72-96. *)
Definition checkin (this : GitHubClient) (path content message sha branch : string)
  : M R CommitResult :=
  let encodedContent := base64_encode content in
  response <- octokit_repos_createOrUpdateFileContents (this_token this)
                (mkUpdateParams (this_owner this) (this_repo this) path message
                   encodedContent (Some sha) branch) ;;
  ret (commit_result response message).

(** [createFile(path, content, message, branch)], lines 101-123. *)
Definition createFile (this : GitHubClient) (path content message branch : string)
  : M R CommitResult :=
  let encodedContent := base64_encode content in
  response <- octokit_repos_createOrUpdateFileContents (this_token this)
                (mkUpdateParams (this_owner this) (this_repo this) path message
                   encodedContent None branch) ;;
  ret (commit_result response message).

(** [listFiles(path, branch)], lines 128-145. *)
Definition listFiles (this : GitHubClient) (path branch : string) : M R (list string) :=
  data <- octokit_repos_getContent (this_token this)
            (mkGetContentParams (this_owner this) (this_repo this) path branch) ;;
  match data with
  | DataObject data => ret [item_path data]
  | DataArray data =>
      ret (List.map item_path (List.filter (fun item => item_type item =? "file") data))
  end.

End Program.

(** ** The command surface *)

(** The options object that [commander] hands to the [checkout] action;
    [--branch] is declared with the default [main]. *)
Record CheckoutOptions := mkCheckoutOptions {
  co_branch : string;
  co_output : option string }.

(** Options of [checkin]: [--message] has the default [Update content],
    [--branch] has none. *)
Record CheckinOptions := mkCheckinOptions {
  ci_message : string;
  ci_branch : option string }.

(** Options of [update]. *)
Record UpdateOptions := mkUpdateOptions {
  uo_branch : string;
  uo_message : string;
  uo_find : option string;
  uo_replace : option string;
  uo_append : option string;
  uo_prepend : option string }.

Section Commands.

Context {RT : Runtime} {R : Type} {OK : Octokit R}.

(** [getClient()], lines 10-22. *)
Definition getClient : M R GitHubClient :=
  token <- process_env "GITHUB_TOKEN" ;;
  GITHUB_OWNER <- process_env "GITHUB_OWNER" ;;
  let owner := or_else GITHUB_OWNER "leeasling-gradial" in
  GITHUB_REPO <- process_env "GITHUB_REPO" ;;
  let repo := or_else GITHUB_REPO "grady-challenge" in
  match token with
  | Some token =>
      if is_empty token
      then
        console_error "Error: GITHUB_TOKEN environment variable is required" ;;;
        console_error "Set it with: export GITHUB_TOKEN=your_token" ;;;
        exit 1
      else ret (mkGitHubClient token owner repo)
  | None =>
      console_error "Error: GITHUB_TOKEN environment variable is required" ;;;
      console_error "Set it with: export GITHUB_TOKEN=your_token" ;;;
      exit 1
  end.

(** The handler shared by every action:
    [catch (error) { console.error(`Error: ${error.message}`); process.exit(1); }]. *)
Definition report_and_exit (error : Error) : M R unit :=
  console_error ("Error: " ++ message error) ;;;
  exit 1.

(** The action of [checkout <file>], lines 34-67. *)
Definition checkout_action (file : string) (options : CheckoutOptions) : M R unit :=
  client <- getClient ;;
  try_catch
    (console_log ("Checking out: " ++ file) ;;;
     result <- checkout client file (co_branch options) ;;
     let outputPath := or_else (co_output options) (path_basename file) in
     fs_writeFileSync outputPath (fc_content result) ;;;
     let metaPath := outputPath ++ ".meta.json" in
     checkedOutAt <- Date_now_toISOString ;;
     fs_writeFileSync metaPath
       (JSON_stringify
          (mkMeta (fc_path result) (fc_sha result) (Some (co_branch options))
                  checkedOutAt None None)) ;;;
     console_log ("✓ File saved to: " ++ outputPath) ;;;
     console_log ("✓ Metadata saved to: " ++ metaPath) ;;;
     console_log ("  SHA: " ++ fc_sha result))
    report_and_exit.

(** The action of [checkin <file>], lines 74-118. *)
Definition checkin_action (file : string) (options : CheckinOptions) : M R unit :=
  client <- getClient ;;
  try_catch
    (file_exists <- fs_existsSync file ;;
     (if negb file_exists
      then throw (new_Error ("Local file not found: " ++ file))
      else ret tt) ;;;
     content <- fs_readFileSync file ;;
     let metaPath := file ++ ".meta.json" in
     meta_exists <- fs_existsSync metaPath ;;
     (if negb meta_exists
      then throw (new_Error ("Metadata file not found: " ++ metaPath ++ nl
                               ++ "Did you checkout this file first?"))
      else ret tt) ;;;
     metaText <- fs_readFileSync metaPath ;;
     meta <- JSON_parse_M metaText ;;
     let branch := or_else (or_opt (ci_branch options) (meta_branch meta)) "main" in
     console_log ("Checking in: " ++ meta_path meta) ;;;
     result <- checkin client (meta_path meta) content (ci_message options)
                 (meta_sha meta) branch ;;
     lastUpdatedAt <- Date_now_toISOString ;;
     let meta := mkMeta (meta_path meta) (cr_sha result) (meta_branch meta)
                        (meta_checkedOutAt meta) (Some (cr_url result))
                        (Some lastUpdatedAt) in
     fs_writeFileSync metaPath (JSON_stringify meta) ;;;
     console_log "✓ File committed successfully" ;;;
     console_log ("  Commit: " ++ substring 0 7 (cr_sha result)) ;;;
     console_log ("  URL: " ++ cr_url result) ;;;
     console_log (nl ++ "✓ GitHub Pages will update shortly"))
    report_and_exit.

(** The three transformations of [update], lines 152-173, each on the pair
    of the local variables [(content, modified)]. *)
Definition apply_find_replace (options : UpdateOptions) (st : string * bool)
  : M R (string * bool) :=
  let '(content, modified) := st in
  match uo_find options, uo_replace options with
  | Some find, Some replace =>
      if is_empty find then ret (content, modified)
      else
        let newContent := join replace (split find content) in
        if negb (newContent =? content)
        then
          console_log ("✓ Replaced " ++ dq ++ find ++ dq ++ " with " ++ dq
                         ++ replace ++ dq) ;;;
          ret (newContent, true)
        else
          console_log ("⚠ Text " ++ dq ++ find ++ dq ++ " not found in file") ;;;
          ret (content, modified)
  | _, _ => ret (content, modified)
  end.

Definition apply_append (options : UpdateOptions) (st : string * bool)
  : M R (string * bool) :=
  let '(content, modified) := st in
  match uo_append options with
  | Some append =>
      if is_empty append then ret (content, modified)
      else
        console_log "✓ Appended content" ;;;
        ret (content ++ append, true)
  | None => ret (content, modified)
  end.

Definition apply_prepend (options : UpdateOptions) (st : string * bool)
  : M R (string * bool) :=
  let '(content, modified) := st in
  match uo_prepend options with
  | Some prepend =>
      if is_empty prepend then ret (content, modified)
      else
        console_log "✓ Prepended content" ;;;
        ret (prepend ++ content, true)
  | None => ret (content, modified)
  end.

(** The action of [update <file>], lines 130-198. *)
Definition update_action (file : string) (options : UpdateOptions) : M R unit :=
  client <- getClient ;;
  try_catch
    (console_log ("Checking out: " ++ file) ;;;
     result <- checkout client file (uo_branch options) ;;
     st <- apply_find_replace options (fc_content result, false) ;;
     st <- apply_append options st ;;
     st <- apply_prepend options st ;;
     let '(content, modified) := st in
     if negb modified
     then console_log "No modifications made. Skipping checkin."
     else
       console_log ("Checking in: " ++ file) ;;;
       commitResult <- checkin client file content (uo_message options)
                         (fc_sha result) (uo_branch options) ;;
       console_log "✓ File committed successfully" ;;;
       console_log ("  Commit: " ++ substring 0 7 (cr_sha commitResult)) ;;;
       console_log ("  URL: " ++ cr_url commitResult) ;;;
       console_log (nl ++ "✓ GitHub Pages will update shortly"))
    report_and_exit.

(** The exit status of the process that ran an action: [0] when the action
    returned, the argument of [process.exit] otherwise.  An error that
    escapes an action is an unhandled rejection, which ends Node with
    status [1]. *)
Definition exit_status {A} (r : outcome A) : nat :=
  match r with
  | Return _ => 0
  | Throw _ => 1
  | Exit code => code
  end.

End Commands.

(** ** The remote repository *)

Module Remote.

(** Modelled from the spec: a file of the remote repository, which is not
    part of the sources; its revision number and the content as it was
    submitted (transport encoded). *)
Record RemoteFile := mkRemoteFile {
  rf_revision : nat;
  rf_content : string }.

(** Modelled from the spec: the remote finds a file by owner, repository,
    branch and path. *)
Definition key_of (owner repo branch path : string)
  : string * string * string * string := (owner, repo, branch, path).

(** Modelled from the spec: the revision marker, "an opaque identifier
    representing the exact state of a file at a point in time"; here the
    decimal numeral of the revision, different for different revisions. *)
Definition marker (revision : nat) : string := pretty revision.

(** Modelled from the spec: the conflict error of a rejected write. *)
Definition conflict (path sha : string) : Error :=
  mkError (Some 409) (path ++ " does not match " ++ sha).

(** Modelled from the spec: the remote "reports absence" of a path. *)
Definition not_found : Error := mkError (Some 404) "Not Found".

(** Modelled from the spec: an accepted write stores the content under a
    new revision and answers with the commit carrying its marker. *)
Definition accept (p : UpdateParams) (revision : nat)
  (r : gmap (string * string * string * string) RemoteFile)
  : promise Commit * gmap (string * string * string * string) RemoteFile :=
  (Fulfilled (mkCommit (Some (marker revision))
                (Some ("https://github.com/" ++ up_owner p ++ "/" ++ up_repo p
                         ++ "/commit/" ++ marker revision))
                (Some (up_message p))),
   <[key_of (up_owner p) (up_repo p) (up_branch p) (up_path p)
     := mkRemoteFile revision (up_content p)]> r).

(** Modelled from the spec: the remote hosted-repository API, an external
    collaborator of the program ("not reimplemented").  The specification
    asks of it: file content and revision marker on read; on a write with a
    revision marker as precondition, rejection with a conflict error when
    the current remote revision marker differs; a write without
    precondition is an unconditional create or update; and "the remote
    system always advances revision on write".  Directories are not part of
    this model: a path that holds no file is reported absent. *)
Definition getContent (auth : string) (p : GetContentParams)
  (r : gmap (string * string * string * string) RemoteFile) : promise ContentData :=
  match r !! key_of (gc_owner p) (gc_repo p) (gc_ref p) (gc_path p) with
  | Some f =>
      Fulfilled (DataObject (mkItem "file" (gc_path p) (marker (rf_revision f))
                               (Some (rf_content f)) (Some "base64")))
  | None => Rejected not_found
  end.

(** Modelled from the spec: the conditional and the unconditional write of
    the remote API (see [getContent]). *)
Definition createOrUpdateFileContents (auth : string) (p : UpdateParams)
  (r : gmap (string * string * string * string) RemoteFile)
  : promise Commit * gmap (string * string * string * string) RemoteFile :=
  match up_sha p, r !! key_of (up_owner p) (up_repo p) (up_branch p) (up_path p) with
  | Some sha, Some f =>
      if sha =? marker (rf_revision f)
      then accept p (S (rf_revision f)) r
      else (Rejected (conflict (up_path p) sha), r)
  | Some sha, None => (Rejected (conflict (up_path p) sha), r)
  | None, Some f => accept p (S (rf_revision f)) r
  | None, None => accept p 0 r
  end.

#[global] Instance octokit
  : Octokit (gmap (string * string * string * string) RemoteFile) :=
  {| repos_getContent := getContent;
     repos_createOrUpdateFileContents := createOrUpdateFileContents |}.

End Remote.

Abbreviation SpecRemote := (gmap (string * string * string * string) Remote.RemoteFile).

(** *** Executions of clients against the remote

    One step is one call of a [GitHubClient] method by some client; the
    label records the call and how it ended. *)
Inductive ClientCall :=
| DoCheckout (path branch : string)
| DoCheckin (path content message sha branch : string)
| DoCreateFile (path content message branch : string)
| DoListFiles (path branch : string).

Section Executions.

Context {RT : Runtime} {R : Type} {OK : Octokit R}.

(** Did the call return (rather than throw)? *)
Definition returned {A} (r : outcome A) : bool :=
  match r with Return _ => true | _ => false end.

Definition perform (this : GitHubClient) (call : ClientCall) (w : World R)
  : bool * World R :=
  match call with
  | DoCheckout path branch =>
      let (r, w') := checkout this path branch w in (returned r, w')
  | DoCheckin path content message sha branch =>
      let (r, w') := checkin this path content message sha branch w in (returned r, w')
  | DoCreateFile path content message branch =>
      let (r, w') := createFile this path content message branch w in (returned r, w')
  | DoListFiles path branch =>
      let (r, w') := listFiles this path branch w in (returned r, w')
  end.

(** [steps w trace w']: the calls of [trace], each by its client, lead from
    [w] to [w'] with the recorded successes. *)
Inductive steps : World R -> list (GitHubClient * ClientCall * bool) -> World R -> Prop :=
| steps_done w : steps w [] w
| steps_call w this call ok w1 trace w2 :
    perform this call w = (ok, w1) ->
    steps w1 trace w2 ->
    steps w ((this, call, ok) :: trace) w2.

(** The same execution as a function. *)
Fixpoint run (calls : list (GitHubClient * ClientCall)) (w : World R)
  : list (GitHubClient * ClientCall * bool) * World R :=
  match calls with
  | [] => ([], w)
  | (this, call) :: rest =>
      let (ok, w1) := perform this call w in
      let (trace, w2) := run rest w1 in
      ((this, call, ok) :: trace, w2)
  end.

End Executions.

(** ** A runtime to run the model on concrete inputs

    Base64 as Node's [Buffer] computes it on bytes, and the layout of
    [JSON.stringify(meta, null, 2)] for sidecars whose strings need no
    escaping, with a reader for that layout. *)
Module NodeDouble.

Definition alphabet : string :=
  "ABCDEFGHIJKLMNOPQRSTUVWXYZabcdefghijklmnopqrstuvwxyz0123456789+/".

Definition digit (n : nat) : string :=
  match String.get n alphabet with
  | Some c => String c EmptyString
  | None => "="
  end.

Fixpoint encode_bytes (bytes : list nat) : string :=
  match bytes with
  | [] => EmptyString
  | [a] => digit (a / 4) ++ digit (a mod 4 * 16) ++ "=="
  | [a; b] =>
      digit (a / 4) ++ digit (a mod 4 * 16 + b / 16) ++ digit (b mod 16 * 4) ++ "="
  | a :: b :: c :: rest =>
      digit (a / 4) ++ digit (a mod 4 * 16 + b / 16)
        ++ digit (b mod 16 * 4 + c / 64) ++ digit (c mod 64) ++ encode_bytes rest
  end.

Definition encode (s : string) : string :=
  encode_bytes (List.map nat_of_ascii (list_ascii_of_string s)).

Fixpoint index_of (c : ascii) (s : string) : option nat :=
  match s with
  | EmptyString => None
  | String d s' => if Ascii.eqb c d then Some 0 else option_map S (index_of c s')
  end.

(** The sextets of the text up to the padding; other characters are passed
    over. *)
Fixpoint sextets (s : string) : list nat :=
  match s with
  | EmptyString => []
  | String c s' =>
      if Ascii.eqb c "="%char then []
      else match index_of c alphabet with
           | Some n => n :: sextets s'
           | None => sextets s'
           end
  end.

Fixpoint decode_sextets (l : list nat) : list nat :=
  match l with
  | a :: b :: c :: d :: rest =>
      (a * 4 + b / 16) :: (b mod 16 * 16 + c / 4) :: (c mod 4 * 64 + d)
        :: decode_sextets rest
  | [a; b; c] => [a * 4 + b / 16; b mod 16 * 16 + c / 4]
  | [a; b] => [a * 4 + b / 16]
  | _ => []
  end.

Definition decode (s : string) : string :=
  string_of_list_ascii (List.map ascii_of_nat (decode_sextets (sextets s))).

Definition field (name value : string) : string :=
  "  " ++ dq ++ name ++ dq ++ ": " ++ dq ++ value ++ dq.

Definition optional_field (name : string) (value : option string) : list string :=
  match value with
  | Some v => [field name v]
  | None => []
  end.

Definition stringify (m : Meta) : string :=
  "{" ++ nl
  ++ join ("," ++ nl)
       ([field "path" (meta_path m); field "sha" (meta_sha m)]
          ++ optional_field "branch" (meta_branch m)
          ++ [field "checkedOutAt" (meta_checkedOutAt m)]
          ++ optional_field "lastCommit" (meta_lastCommit m)
          ++ optional_field "lastUpdatedAt" (meta_lastUpdatedAt m))
  ++ nl ++ "}".

(** One line [  "name": "value"] of the layout. *)
Definition read_field (line : string) : option (string * string) :=
  if String.prefix ("  " ++ dq) line
  then
    match split (dq ++ ": " ++ dq) (substring 3 (String.length line - 3) line) with
    | [name; value] =>
        if String.prefix dq (substring (String.length value - 1) 1 value)
        then Some (name, substring 0 (String.length value - 1) value)
        else None
    | _ => None
    end
  else None.

Fixpoint read_fields (lines : list string) : option (list (string * string)) :=
  match lines with
  | [] => Some []
  | line :: rest =>
      match read_field line, read_fields rest with
      | Some kv, Some kvs => Some (kv :: kvs)
      | _, _ => None
      end
  end.

Fixpoint property (name : string) (fields : list (string * string)) : option string :=
  match fields with
  | [] => None
  | (k, v) :: rest =>
      match property name rest with
      | Some later => Some later
      | None => if k =? name then Some v else None
      end
  end.

Definition syntax_error : Error := new_Error "Unexpected token in JSON".

Definition parse (text : string) : promise Meta :=
  if String.prefix ("{" ++ nl) text
     && String.prefix (nl ++ "}") (substring (String.length text - 2) 2 text)
  then
    match read_fields (split ("," ++ nl) (substring 2 (String.length text - 4) text)) with
    | Some fields =>
        match property "path" fields, property "sha" fields,
              property "checkedOutAt" fields with
        | Some p, Some s, Some t =>
            Fulfilled (mkMeta p s (property "branch" fields) t
                         (property "lastCommit" fields)
                         (property "lastUpdatedAt" fields))
        | _, _, _ => Rejected syntax_error
        end
    | None => Rejected syntax_error
    end
  else Rejected syntax_error.

(** The base name of a path written with [/]. *)
Definition basename (path : string) : string :=
  List.last (split "/" path) EmptyString.

Definition runtime : Runtime :=
  {| base64_decode := decode;
     base64_encode := encode;
     JSON_parse := parse;
     JSON_stringify := stringify;
     path_basename := basename |}.

End NodeDouble.

(** ** A remote that answers as told

    The remote state is the pair of answers it gives: one to every read,
    one to every write.  It serves to run the client on answers of any
    shape. *)
Module Canned.

Record Answers := mkAnswers {
  on_getContent : promise ContentData;
  on_createOrUpdate : promise Commit }.

#[global] Instance octokit : Octokit Answers :=
  {| repos_getContent := fun _ _ r => on_getContent r;
     repos_createOrUpdateFileContents := fun _ _ r => (on_createOrUpdate r, r) |}.

End Canned.

(** ** Sample worlds *)

Definition sample_env : gmap string string :=
  <["GITHUB_TOKEN" := "ghp_sample"]> ∅.

Definition sample_client : GitHubClient :=
  mkGitHubClient "ghp_sample" "leeasling-gradial" "grady-challenge".

Definition sample_time : string := "2024-05-02T09:30:00.000Z".

(** A world with the given local files and remote, and nothing said yet. *)
Definition sample_world {R} (files : gmap string string) (remote : R) : World R :=
  mkWorld sample_env files sample_time remote [] [] [].

(** The remote holds [hello.txt] on [main] at revision 5 with the content
    "hi" (transport encoded). *)
Definition sample_remote : SpecRemote :=
  <[Remote.key_of "leeasling-gradial" "grady-challenge" "main" "hello.txt"
    := Remote.mkRemoteFile 5 "aGk="]> ∅.

(** A sidecar of [hello.txt] that saved the marker of [revision]. *)
Definition sample_meta (revision : nat) : Meta :=
  mkMeta "hello.txt" (Remote.marker revision) (Some "main")
         "2024-05-01T10:00:00.000Z" None None.

(** The local files after a checkout at [revision] and an edit. *)
Definition sample_files (revision : nat) : gmap string string :=
  <["hello.txt" := "hi there"]>
    (<["hello.txt.meta.json" := NodeDouble.stringify (sample_meta revision)]> ∅).

Definition sample_checkin_options : CheckinOptions :=
  mkCheckinOptions "Update content" None.

Definition sample_update_options : UpdateOptions :=
  mkUpdateOptions "main" "Update content" (Some "h") (Some "H") (Some "!") (Some ">> ").

(** The object that the sample remote serves for [hello.txt]. *)
Definition sample_item : ContentItem :=
  mkItem "file" "hello.txt" (Remote.marker 5) (Some "aGk=") (Some "base64").

(** A remote that answers every read with a symbolic link that carries
    content. *)
Definition symlink_item : ContentItem :=
  mkItem "symlink" "current" "7c1f" (Some "aGk=") (Some "base64").

Definition symlink_remote : Canned.Answers :=
  Canned.mkAnswers (Fulfilled (DataObject symlink_item))
                   (Rejected (mkError (Some 409) "conflict")).

(** A remote that fails every request with a server error. *)
Definition server_error : Error := mkError (Some 500) "Internal Server Error".

Definition failing_remote : Canned.Answers :=
  Canned.mkAnswers (Rejected server_error) (Rejected server_error).

(** A remote that answers every read with the listing of a directory. *)
Definition listing : list ContentItem :=
  [mkItem "file" "docs/a.md" "11" None None;
   mkItem "dir" "docs/img" "12" None None;
   mkItem "file" "docs/c.md" "13" None None].

Definition listing_remote : Canned.Answers :=
  Canned.mkAnswers (Fulfilled (DataArray listing))
                   (Rejected (mkError (Some 409) "conflict")).

(** ** The transformations of [update] as the specification words them

    "Transformations, applied in this fixed order if requested: literal
    find/replace, then append (suffix), then prepend (prefix)."  A
    find/replace is requested by a non-empty [--find] together with a
    [--replace]. *)
Definition requested_replace (options : UpdateOptions) (content : string) : string :=
  match uo_find options, uo_replace options with
  | Some find, Some replace =>
      if is_empty find then content else replace_all find replace content
  | _, _ => content
  end.

Definition requested_suffix (options : UpdateOptions) : string :=
  match uo_append options with Some suffix => suffix | None => EmptyString end.

Definition requested_prefix (options : UpdateOptions) : string :=
  match uo_prepend options with Some prefix => prefix | None => EmptyString end.

Definition transformed (options : UpdateOptions) (content : string) : string :=
  requested_prefix options ++ (requested_replace options content ++ requested_suffix options).

(** [find] occurs somewhere in [s]. *)
Fixpoint occurs (find s : string) : bool :=
  String.prefix find s
  || match s with
     | EmptyString => false
     | String _ s' => occurs find s'
     end.

(** The paths of the entries of a listing whose type is [file], in order. *)
Fixpoint file_paths (items : list ContentItem) : list string :=
  match items with
  | [] => []
  | item :: rest =>
      if item_type item =? "file"
      then item_path item :: file_paths rest
      else file_paths rest
  end.

(** The client that [getClient] builds in a world whose environment holds
    the credential [token]. *)
Definition configured_client {R} (w : World R) (token : string) : GitHubClient :=
  mkGitHubClient token
    (or_else (w_env w !! "GITHUB_OWNER") "leeasling-gradial")
    (or_else (w_env w !! "GITHUB_REPO") "grady-challenge").

(** The credential is present in the environment. *)
Definition has_token {R} (w : World R) (token : string) : Prop :=
  w_env w !! "GITHUB_TOKEN" = Some token /\ token <> EmptyString.

(** The request that the [checkin] command sends for the local [content]
    and the sidecar [meta]: line 93 chooses the branch, lines 96-102 pass
    the sidecar's path and saved marker. *)
Definition checkin_request {RT : Runtime} {R} (w : World R) (token : string)
  (options : CheckinOptions) (content : string) (meta : Meta) : UpdateParams :=
  mkUpdateParams (this_owner (configured_client w token))
    (this_repo (configured_client w token)) (meta_path meta) (ci_message options)
    (base64_encode content) (Some (meta_sha meta))
    (or_else (or_opt (ci_branch options) (meta_branch meta)) "main").

(** Several lines on the output stream. *)
Definition print_lines {R} (lines : list string) (w : World R) : World R :=
  fold_left (fun w line => print_out line w) lines w.

(** The remote answers a read of [path] on [branch] with a single object of
    type file that carries the non-empty transport text [encoded]. *)
Definition serves_file {R} {OK : Octokit R} (w : World R) (this : GitHubClient)
  (path branch : string) (item : ContentItem) (encoded : string) : Prop :=
  repos_getContent (this_token this)
    (mkGetContentParams (this_owner this) (this_repo this) path branch) (w_remote w)
  = Fulfilled (DataObject item)
  /\ item_type item = "file"
  /\ item_content item = Some encoded
  /\ encoded <> EmptyString.

(** "At least one transform changed the content": the replacement changed
    the checked-out content, or the suffix changed the result of the
    replacement, or the prefix changed the result of that. *)
Definition change_made (options : UpdateOptions) (content : string) : Prop :=
  let replaced := requested_replace options content in
  let suffixed := replaced ++ requested_suffix options in
  let prefixed := requested_prefix options ++ suffixed in
  replaced <> content \/ suffixed <> replaced \/ prefixed <> suffixed.

(** The value of the local variable [modified] of [update] after the three
    transformations. *)
Definition modified_flag (options : UpdateOptions) (content : string) : bool :=
  negb (requested_replace options content =? content)
  || negb (is_empty (requested_suffix options))
  || negb (is_empty (requested_prefix options)).

(** The request that the [update] command sends when it checks in, lines
    182-188: the path given on the command line, the marker of the
    checkout, the branch of the options. *)
Definition update_request {RT : Runtime} (this : GitHubClient) (file : string)
  (options : UpdateOptions) (item : ContentItem) (submitted : string) : UpdateParams :=
  mkUpdateParams (this_owner this) (this_repo this) file (uo_message options)
    (base64_encode submitted) (Some (item_sha item)) (uo_branch options).

(** The options without [--find] and [--replace]. *)
Definition without_find_replace (options : UpdateOptions) : UpdateOptions :=
  mkUpdateOptions (uo_branch options) (uo_message options) None None
    (uo_append options) (uo_prepend options).

(** A computation that leaves the local files as they are, however it
    ends. *)
Definition keeps_files {R A} (m : M R A) : Prop :=
  forall w, w_fs (snd (m w)) = w_fs w.

(** ** The [list] command *)

(** Options of [list]: [--branch] is declared with the default [main]. *)
Record ListOptions := mkListOptions {
  lo_branch : string }.

Section ListCommand.

Context {R : Type} {OK : Octokit R}.

(** [files.forEach((file) => console.log(`  ${file}`))], line 211. *)
Fixpoint forEach_log (files : list string) : M R unit :=
  match files with
  | [] => ret tt
  | file :: rest =>
      console_log ("  " ++ file) ;;;
      forEach_log rest
  end.

(** The action of [list [directory]], lines 205-216.  [directory] is [None]
    when the argument is left out; the default parameter then makes it the
    empty string. *)
Definition list_action (directory : option string) (options : ListOptions) : M R unit :=
  let directory := match directory with Some d => d | None => EmptyString end in
  client <- getClient ;;
  try_catch
    (files <- listFiles client directory (lo_branch options) ;;
     console_log ("Files in " ++ or_else (Some directory) "root" ++ ":") ;;;
     forEach_log files)
    report_and_exit.

End ListCommand.

(** ** Notions used to state further properties *)

(** The text without its first [n] characters. *)
Fixpoint drop_chars (n : nat) (s : string) : string :=
  match n, s with
  | O, _ => s
  | S _, EmptyString => EmptyString
  | S k, String _ s' => drop_chars k s'
  end.

(** The number of occurrences that the left-to-right scan of [replace_from]
    replaces. *)
Fixpoint count_from (find : string) (drop : nat) (s : string) : nat :=
  match s with
  | EmptyString => 0
  | String c s' =>
      match drop with
      | S k => count_from find k s'
      | O =>
          if String.prefix find s
          then S (count_from find (String.length find - 1) s')
          else count_from find 0 s'
      end
  end.

(** How every action ends when the credential is missing. *)
Definition stopped_without_credential {R} (w : World R) : outcome unit * World R :=
  (Exit 1,
   print_err "Set it with: export GITHUB_TOKEN=your_token"
     (print_err "Error: GITHUB_TOKEN environment variable is required" w)).

(** The local path that the [checkout] command writes to, line 41. *)
Definition output_path {RT : Runtime} (file : string) (options : CheckoutOptions) : string :=
  or_else (co_output options) (path_basename file).

(** The read request of a client for [path] on [branch]. *)
Definition read_request (this : GitHubClient) (path branch : string) : GetContentParams :=
  mkGetContentParams (this_owner this) (this_repo this) path branch.

(** A computation that prints nothing on the error stream and does not end
    the process. *)
Definition silent {R A} (m : M R A) : Prop :=
  forall w, w_stderr (snd (m w)) = w_stderr w /\ forall code, fst (m w) <> Exit code.

(** An action ends in one of two ways: it returns and the error stream is
    as before, or it ends the process with status 1 after printing at least
    one line on the error stream. *)
Definition ends_cleanly {R} (m : M R unit) : Prop :=
  forall w,
    (fst (m w) = Return tt /\ w_stderr (snd (m w)) = w_stderr w)
    \/ (fst (m w) = Exit 1
        /\ exists line lines, w_stderr (snd (m w)) = (w_stderr w ++ line :: lines)%list).

(** A world without the credential. *)
Definition anonymous_world : World SpecRemote :=
  mkWorld ∅ (sample_files 5) sample_time sample_remote [] [] [].

(** A remote that holds no file. *)
Definition empty_remote : SpecRemote := ∅.

Definition sample_checkout_options : CheckoutOptions := mkCheckoutOptions "main" None.

(** [--find h --replace h]. *)
Definition same_replacement_options : UpdateOptions :=
  mkUpdateOptions "main" "Update content" (Some "h") (Some "h") None None.

(** [--find h --replace] with the empty text. *)
Definition deleting_options : UpdateOptions :=
  mkUpdateOptions "main" "Update content" (Some "h") (Some EmptyString) None None.

(** The sidecar that a checkout of the sample file writes. *)
Definition checked_out_meta : Meta :=
  mkMeta "hello.txt" (Remote.marker 5) (Some "main") sample_time None None.

(** The read of the sample file. *)
Definition sample_read : RemoteCall :=
  CallGetContent (mkGetContentParams "leeasling-gradial" "grady-challenge"
                    "hello.txt" "main").

(** ** The [try] blocks of the actions

    Each action is [getClient()] followed by a [try] block under the common
    handler.  The blocks are named here, as the source has them, to state
    what becomes of an error that is thrown inside one. *)

Section ActionBodies.

Context {RT : Runtime} {R : Type} {OK : Octokit R}.

(** Lines 38-62. *)
Definition checkout_body (client : GitHubClient) (file : string)
  (options : CheckoutOptions) : M R unit :=
  console_log ("Checking out: " ++ file) ;;;
  result <- checkout client file (co_branch options) ;;
  let outputPath := or_else (co_output options) (path_basename file) in
  fs_writeFileSync outputPath (fc_content result) ;;;
  let metaPath := outputPath ++ ".meta.json" in
  checkedOutAt <- Date_now_toISOString ;;
  fs_writeFileSync metaPath
    (JSON_stringify
       (mkMeta (fc_path result) (fc_sha result) (Some (co_branch options))
               checkedOutAt None None)) ;;;
  console_log ("✓ File saved to: " ++ outputPath) ;;;
  console_log ("✓ Metadata saved to: " ++ metaPath) ;;;
  console_log ("  SHA: " ++ fc_sha result).

(** Lines 78-113. *)
Definition checkin_body (client : GitHubClient) (file : string)
  (options : CheckinOptions) : M R unit :=
  file_exists <- fs_existsSync file ;;
  (if negb file_exists
   then throw (new_Error ("Local file not found: " ++ file))
   else ret tt) ;;;
  content <- fs_readFileSync file ;;
  let metaPath := file ++ ".meta.json" in
  meta_exists <- fs_existsSync metaPath ;;
  (if negb meta_exists
   then throw (new_Error ("Metadata file not found: " ++ metaPath ++ nl
                            ++ "Did you checkout this file first?"))
   else ret tt) ;;;
  metaText <- fs_readFileSync metaPath ;;
  meta <- JSON_parse_M metaText ;;
  let branch := or_else (or_opt (ci_branch options) (meta_branch meta)) "main" in
  console_log ("Checking in: " ++ meta_path meta) ;;;
  result <- checkin client (meta_path meta) content (ci_message options)
              (meta_sha meta) branch ;;
  lastUpdatedAt <- Date_now_toISOString ;;
  let meta := mkMeta (meta_path meta) (cr_sha result) (meta_branch meta)
                     (meta_checkedOutAt meta) (Some (cr_url result))
                     (Some lastUpdatedAt) in
  fs_writeFileSync metaPath (JSON_stringify meta) ;;;
  console_log "✓ File committed successfully" ;;;
  console_log ("  Commit: " ++ substring 0 7 (cr_sha result)) ;;;
  console_log ("  URL: " ++ cr_url result) ;;;
  console_log (nl ++ "✓ GitHub Pages will update shortly").

(** Lines 144-193. *)
Definition update_body (client : GitHubClient) (file : string)
  (options : UpdateOptions) : M R unit :=
  console_log ("Checking out: " ++ file) ;;;
  result <- checkout client file (uo_branch options) ;;
  st <- apply_find_replace options (fc_content result, false) ;;
  st <- apply_append options st ;;
  st <- apply_prepend options st ;;
  let '(content, modified) := st in
  if negb modified
  then console_log "No modifications made. Skipping checkin."
  else
    console_log ("Checking in: " ++ file) ;;;
    commitResult <- checkin client file content (uo_message options)
                      (fc_sha result) (uo_branch options) ;;
    console_log "✓ File committed successfully" ;;;
    console_log ("  Commit: " ++ substring 0 7 (cr_sha commitResult)) ;;;
    console_log ("  URL: " ++ cr_url commitResult) ;;;
    console_log (nl ++ "✓ GitHub Pages will update shortly").

(** Lines 209-211, for the directory after the default was applied. *)
Definition list_body (client : GitHubClient) (directory : string)
  (options : ListOptions) : M R unit :=
  files <- listFiles client directory (lo_branch options) ;;
  console_log ("Files in " ++ or_else (Some directory) "root" ++ ":") ;;;
  forEach_log files.

End ActionBodies.

(** The remote fulfilled the request [call] when it was sent with the
    credential [auth] in the state [remote]. *)
Definition fulfilled_by {R} {OK : Octokit R} (auth : string) (remote : R)
  (call : RemoteCall) : Prop :=
  match call with
  | CallGetContent p => exists data, repos_getContent auth p remote = Fulfilled data
  | CallCreateOrUpdate p =>
      exists commit,
        fst (repos_createOrUpdateFileContents auth p remote) = Fulfilled commit
  end.

(** What becomes of the [try] block [body] in [action]: when the block
    returns, the action returns in the same world; when the block throws
    [e], whatever [e] is, the action ends the process with status 1 after
    printing the message of [e] on the error stream; the block itself
    prints nothing on the error stream and does not end the process. *)
Definition reports_every_error {R} (body : GitHubClient -> M R unit)
  (action : M R unit) : Prop :=
  forall w token, has_token w token ->
    let r := body (configured_client w token) w in
    w_stderr (snd r) = w_stderr w
    /\ match fst r with
       | Return _ => action w = (Return tt, snd r)
       | Throw e => action w = (Exit 1, print_err ("Error: " ++ message e) (snd r))
       | Exit _ => False
       end.

(** An action that returns has had every request it sent fulfilled: no
    rejection by the remote is passed over. *)
Definition returns_only_when_fulfilled {R} {OK : Octokit R} (action : M R unit) : Prop :=
  forall w token, has_token w token ->
    fst (action w) = Return tt ->
    exists requests,
      w_calls (snd (action w)) = (w_calls w ++ requests)%list
      /\ Forall (fulfilled_by token (w_remote w)) requests.

(** The three together, for an action built from [body]. *)
Definition ends_honestly {R} {OK : Octokit R} (body : GitHubClient -> M R unit)
  (action : M R unit) : Prop :=
  action = bind getClient (fun client => try_catch (body client) report_and_exit)
  /\ ends_cleanly action
  /\ reports_every_error body action
  /\ returns_only_when_fulfilled action.

(** * Properties *)

(** ** Strings *)

Lemma is_empty_true s : is_empty s = true <-> s = EmptyString.
Proof. destruct s; cbn; split; congruence. Qed.

Lemma is_empty_false s : is_empty s = false <-> s <> EmptyString.
Proof. destruct s; cbn; split; congruence. Qed.

Lemma append_String c s t : String c s ++ t = String c (s ++ t).
Proof. reflexivity. Qed.

Lemma append_empty_r s : s ++ EmptyString = s.
Proof.
  induction s as [|c s IH]; [reflexivity|]. now rewrite append_String, IH.
Qed.

Lemma append_length s t : String.length (s ++ t) = String.length s + String.length t.
Proof.
  induction s as [|c s IH]; [reflexivity|].
  rewrite append_String. cbn [String.length]. now rewrite IH.
Qed.

(** Appending or prepending a non-empty text changes the content. *)
Lemma append_changes s t : t <> EmptyString -> s ++ t <> s.
Proof.
  intros Ht Heq. apply (f_equal String.length) in Heq.
  rewrite append_length in Heq. destruct t; [congruence | cbn in Heq; lia].
Qed.

Lemma prepend_changes s t : t <> EmptyString -> t ++ s <> s.
Proof.
  intros Ht Heq. apply (f_equal String.length) in Heq.
  rewrite append_length in Heq. destruct t; [congruence | cbn in Heq; lia].
Qed.

Lemma split_from_cons sep skip s :
  exists piece pieces, split_from sep skip s = piece :: pieces.
Proof.
  revert skip. induction s as [|c s IH]; intros skip; cbn [split_from].
  - eauto.
  - destruct skip as [|k]; [|apply IH].
    destruct (String.prefix sep (String c s)); [eauto|].
    destruct (IH 0) as (piece & pieces & ->). eauto.
Qed.

Lemma join_cons glue piece p pieces :
  join glue (piece :: p :: pieces) = piece ++ glue ++ join glue (p :: pieces).
Proof. reflexivity. Qed.

Lemma join_push glue c piece pieces :
  join glue (String c piece :: pieces) = String c (join glue (piece :: pieces)).
Proof. destruct pieces; reflexivity. Qed.

(** [split] then [join] is the left-to-right replacement of the
    specification. *)
Lemma join_split_from find replace skip s :
  join replace (split_from find skip s) = replace_from find replace skip s.
Proof.
  revert skip. induction s as [|c s IH]; intros skip; [reflexivity|].
  cbn [split_from replace_from]. destruct skip as [|k]; [|apply IH].
  destruct (String.prefix find (String c s)).
  - destruct (split_from_cons find (String.length find - 1) s) as (p & ps & Hs).
    rewrite <- IH, Hs, join_cons. reflexivity.
  - destruct (split_from_cons find 0 s) as (p & ps & Hs).
    rewrite <- IH, Hs, join_push. reflexivity.
Qed.

Lemma join_split find replace s :
  join replace (split find s) = replace_all find replace s.
Proof. apply join_split_from. Qed.

(** Where the text to find does not occur, nothing is replaced. *)
Lemma replace_all_absent find replace s :
  occurs find s = false -> replace_all find replace s = s.
Proof.
  unfold replace_all. induction s as [|c s IH]; [reflexivity|].
  cbn [occurs replace_from]. intros H. apply orb_false_iff in H as [Hp Ho].
  rewrite Hp, IH; auto.
Qed.

(** ** The client *)

Section ClientProperties.

Context {RT : Runtime} {R : Type} {OK : Octokit R}.

Ltac run_client :=
  unfold checkout, checkin, createFile, listFiles, try_catch, bind, ret, throw,
    octokit_repos_getContent, octokit_repos_createOrUpdateFileContents.

(** What [checkout] does on each answer of the remote, in one equation. *)
Lemma checkout_run (this : GitHubClient) (path branch : string) (w : World R) :
  let p := mkGetContentParams (this_owner this) (this_repo this) path branch in
  checkout this path branch w =
  (match repos_getContent (this_token this) p (w_remote w) with
   | Fulfilled (DataArray _) =>
       Throw (new_Error ("Path " ++ dq ++ path ++ dq ++ " is a directory, not a file"))
   | Fulfilled (DataObject item) =>
       if item_type item =? "file"
       then if truthy (item_content item)
            then Return (mkFileContent
                           (base64_decode (or_else (item_content item) EmptyString))
                           (item_sha item) (item_path item)
                           (or_else (item_encoding item) "base64"))
            else Throw (new_Error ("No content found for file " ++ dq ++ path ++ dq))
       else Throw (new_Error ("Path " ++ dq ++ path ++ dq ++ " is not a file (type: "
                                ++ item_type item ++ ")"))
   | Rejected e =>
       if bool_decide (status e = Some 404)
       then Throw (new_Error ("File not found: " ++ path))
       else Throw e
   end, sent (CallGetContent p) (w_remote w) w).
Proof.
  intros p. run_client. fold p.
  destruct (repos_getContent (this_token this) p (w_remote w)) as [[items|item]|e];
    cbn.
  - reflexivity.
  - destruct (item_type item =? "file"); cbn; [|reflexivity].
    destruct (item_content item) as [encoded|]; cbn; [|reflexivity].
    destruct encoded; reflexivity.
  - destruct (bool_decide (status e = Some 404)); reflexivity.
Qed.

(** C6 (amended).  [checkout(path, branch)] sends one read request and then:
    fails with "is a directory, not a file" (NotAFile) when the remote
    answers with a directory listing; fails with "File not found"
    (NotFound) when the remote rejects the request with status 404; fails
    with "No content found" (EmptyContent) when the answer is an object of
    type file without content or with empty content; returns the
    base64-decoded content with the object's revision marker, path and
    encoding (base64 when the object names none) when the answer is an
    object of type file with non-empty content.  The two remaining answers
    end otherwise: an object of any other type fails with "is not a file",
    and a rejection with any other status is thrown on unchanged. *)
Theorem checkout_outcomes (this : GitHubClient) (path branch : string) (w : World R) :
  let p := mkGetContentParams (this_owner this) (this_repo this) path branch in
  let answer := repos_getContent (this_token this) p (w_remote w) in
  let w' := sent (CallGetContent p) (w_remote w) w in
  (forall items, answer = Fulfilled (DataArray items) ->
     checkout this path branch w =
     (Throw (new_Error ("Path " ++ dq ++ path ++ dq ++ " is a directory, not a file")), w'))
  /\ (forall e, answer = Rejected e -> status e = Some 404 ->
        checkout this path branch w =
        (Throw (new_Error ("File not found: " ++ path)), w'))
  /\ (forall item, answer = Fulfilled (DataObject item) ->
        item_type item = "file" -> truthy (item_content item) = false ->
        checkout this path branch w =
        (Throw (new_Error ("No content found for file " ++ dq ++ path ++ dq)), w'))
  /\ (forall item encoded, answer = Fulfilled (DataObject item) ->
        item_type item = "file" -> item_content item = Some encoded ->
        encoded <> EmptyString ->
        checkout this path branch w =
        (Return (mkFileContent (base64_decode encoded) (item_sha item) (item_path item)
                   (or_else (item_encoding item) "base64")), w'))
  /\ (forall item, answer = Fulfilled (DataObject item) ->
        item_type item <> "file" ->
        checkout this path branch w =
        (Throw (new_Error ("Path " ++ dq ++ path ++ dq ++ " is not a file (type: "
                             ++ item_type item ++ ")")), w'))
  /\ (forall e, answer = Rejected e -> status e <> Some 404 ->
        checkout this path branch w = (Throw e, w')).
Proof.
  intros p answer w'. pose proof (checkout_run this path branch w) as Hrun.
  cbn zeta in Hrun. fold p answer w' in Hrun. rewrite Hrun. clear Hrun.
  repeat split.
  - intros items ->. reflexivity.
  - intros e -> He. rewrite bool_decide_eq_true_2 by assumption. reflexivity.
  - intros item -> Ht Hc. apply String.eqb_eq in Ht. rewrite Ht, Hc. reflexivity.
  - intros item encoded -> Ht Hc Hne. apply String.eqb_eq in Ht.
    apply is_empty_false in Hne. rewrite Ht, Hc. cbn. rewrite Hne. reflexivity.
  - intros item -> Ht. apply String.eqb_neq in Ht. rewrite Ht. reflexivity.
  - intros e -> He. rewrite bool_decide_eq_false_2 by assumption. reflexivity.
Qed.

Lemma file_paths_filter (items : list ContentItem) :
  List.map item_path (List.filter (fun item => item_type item =? "file") items)
  = file_paths items.
Proof.
  induction items as [|item rest IH]; [reflexivity|].
  cbn [List.filter file_paths]. destruct (item_type item =? "file"); cbn; now rewrite IH.
Qed.

Lemma in_file_paths (items : list ContentItem) (path : string) :
  In path (file_paths items)
  <-> exists item, In item items /\ item_type item = "file" /\ item_path item = path.
Proof.
  induction items as [|item rest IH]; cbn [file_paths In].
  - split; [tauto | intros (? & [] & _)].
  - destruct (String.eqb_spec (item_type item) "file") as [Hf|Hf]; cbn [In]; rewrite IH.
    + split.
      * intros [<-|(it & Hin & Ht & Hp)]; [exists item; auto | exists it; auto].
      * intros (it & [->|Hin] & Ht & Hp); [auto | right; exists it; auto].
    + split.
      * intros (it & Hin & Ht & Hp). exists it; auto.
      * intros (it & [->|Hin] & Ht & Hp); [congruence | exists it; auto].
Qed.

Lemma file_paths_app (l1 l2 : list ContentItem) :
  file_paths (l1 ++ l2)%list = (file_paths l1 ++ file_paths l2)%list.
Proof.
  induction l1 as [|item rest IH]; [reflexivity|].
  cbn [app file_paths]. destruct (item_type item =? "file"); cbn [app]; now rewrite IH.
Qed.

(** C8.  [listFiles(path, branch)] on a path that resolves to a single
    object returns exactly the one-element sequence of that object's path;
    on a directory it returns exactly the paths of the entries whose type is
    file, in the order of the listing: a path is in the result if and only
    if an entry of type file carries it, and an entry of another type (a
    sub-directory) can be struck from the listing without changing the
    result. *)
Theorem listFiles_file_or_directory (this : GitHubClient) (path branch : string)
  (w : World R) :
  let p := mkGetContentParams (this_owner this) (this_repo this) path branch in
  let answer := repos_getContent (this_token this) p (w_remote w) in
  let w' := sent (CallGetContent p) (w_remote w) w in
  (forall item, answer = Fulfilled (DataObject item) ->
     listFiles this path branch w = (Return [item_path item], w'))
  /\ (forall items, answer = Fulfilled (DataArray items) ->
        listFiles this path branch w = (Return (file_paths items), w')
        /\ (forall q, In q (file_paths items)
              <-> exists item, In item items /\ item_type item = "file"
                               /\ item_path item = q)
        /\ (forall before item after, items = (before ++ item :: after)%list ->
              item_type item <> "file" ->
              file_paths items = file_paths (before ++ after)%list)).
Proof.
  intros p answer w'. split.
  - intros item Ha. run_client. fold p answer. rewrite Ha. reflexivity.
  - intros items Ha. split; [|split].
    + run_client. fold p answer. rewrite Ha. cbn. now rewrite file_paths_filter.
    + apply in_file_paths.
    + intros before item after -> Ht. rewrite !file_paths_app.
      cbn [file_paths]. apply String.eqb_neq in Ht. now rewrite Ht.
Qed.

End ClientProperties.

(** ** The commands *)

Section CommandProperties.

Context {RT : Runtime} {R : Type} {OK : Octokit R}.

Ltac run_action :=
  unfold checkin_action, update_action, checkout_action, report_and_exit,
    try_catch, bind, ret, throw, exit, console_log, console_error,
    fs_existsSync, fs_readFileSync, fs_writeFileSync, JSON_parse_M,
    Date_now_toISOString.

Lemma getClient_ok (w : World R) (token : string) :
  has_token w token ->
  getClient w = (Return (configured_client w token), w).
Proof.
  intros [Henv Hne]. unfold getClient, bind, process_env, ret. rewrite Henv.
  apply is_empty_false in Hne. rewrite Hne. reflexivity.
Qed.

(** Without the credential no command gets past [getClient]: two lines on
    the error stream, exit status 1, nothing else touched. *)
Lemma getClient_missing (w : World R) :
  truthy (w_env w !! "GITHUB_TOKEN") = false ->
  getClient w =
  (Exit 1, print_err "Set it with: export GITHUB_TOKEN=your_token"
             (print_err "Error: GITHUB_TOKEN environment variable is required" w)).
Proof.
  intros H. unfold getClient, bind, process_env, ret, console_error, exit.
  destruct (w_env w !! "GITHUB_TOKEN") as [[|c t]|]; cbn in H; try discriminate;
    reflexivity.
Qed.

Lemma getClient_cases (w : World R) :
  (exists token, has_token w token)
  \/ truthy (w_env w !! "GITHUB_TOKEN") = false.
Proof.
  destruct (w_env w !! "GITHUB_TOKEN") as [[|c t]|] eqn:E; cbn; auto.
  left. exists (String c t). split; [assumption | discriminate].
Qed.

Lemma bind_getClient_ok {A} (k : GitHubClient -> M R A) (w : World R) (token : string) :
  has_token w token ->
  bind getClient k w = k (configured_client w token) w.
Proof. intros H. unfold bind. now rewrite (getClient_ok w token H). Qed.

Lemma bind_getClient_missing {A} (k : GitHubClient -> M R A) (w : World R) :
  truthy (w_env w !! "GITHUB_TOKEN") = false ->
  bind getClient k w =
  (Exit 1, print_err "Set it with: export GITHUB_TOKEN=your_token"
             (print_err "Error: GITHUB_TOKEN environment variable is required" w)).
Proof. intros H. unfold bind. now rewrite (getClient_missing w H). Qed.

Lemma checkin_action_no_token (w : World R) (file : string) (options : CheckinOptions) :
  truthy (w_env w !! "GITHUB_TOKEN") = false ->
  checkin_action file options w =
  (Exit 1, print_err "Set it with: export GITHUB_TOKEN=your_token"
             (print_err "Error: GITHUB_TOKEN environment variable is required" w)).
Proof. apply bind_getClient_missing. Qed.

Lemma checkin_action_no_file (w : World R) (file : string) (options : CheckinOptions)
  (token : string) :
  has_token w token ->
  w_fs w !! file = None ->
  checkin_action file options w =
  (Exit 1, print_err ("Error: Local file not found: " ++ file) w).
Proof.
  intros Htok Hfile. unfold checkin_action. rewrite (bind_getClient_ok _ w token Htok).
  run_action. cbn. rewrite Hfile. reflexivity.
Qed.

Lemma checkin_action_no_meta (w : World R) (file : string) (options : CheckinOptions)
  (token content : string) :
  has_token w token ->
  w_fs w !! file = Some content ->
  w_fs w !! (file ++ ".meta.json") = None ->
  checkin_action file options w =
  (Exit 1, print_err ("Error: Metadata file not found: " ++ (file ++ ".meta.json") ++ nl
                        ++ "Did you checkout this file first?") w).
Proof.
  intros Htok Hfile Hmeta. unfold checkin_action.
  rewrite (bind_getClient_ok _ w token Htok).
  run_action. cbn. repeat (first [rewrite Hfile | rewrite Hmeta]; cbn). reflexivity.
Qed.

(** C5.  When the local content file or its sidecar does not exist,
    [checkin] ends with exit status 1, sends no request to the remote,
    leaves the remote and the local files as they are, and (the credential
    being present) reports the missing file: "Local file not found" for
    the content file, otherwise "Metadata file not found ... Did you
    checkout this file first?" for the sidecar. *)
Theorem checkin_requires_local_files (w : World R) (file : string)
  (options : CheckinOptions) :
  w_fs w !! file = None \/ w_fs w !! (file ++ ".meta.json") = None ->
  let end_ := checkin_action file options w in
  exit_status (fst end_) = 1
  /\ w_calls (snd end_) = w_calls w
  /\ w_remote (snd end_) = w_remote w
  /\ w_fs (snd end_) = w_fs w
  /\ (forall token, has_token w token ->
        (w_fs w !! file = None ->
           w_stderr (snd end_)
           = (w_stderr w ++ [("Error: Local file not found: " ++ file)%string])%list)
        /\ (w_fs w !! file <> None ->
              w_stderr (snd end_)
              = (w_stderr w ++ [("Error: Metadata file not found: "
                                   ++ (file ++ ".meta.json") ++ nl
                                   ++ "Did you checkout this file first?")%string])%list)).
Proof.
  intros Hmissing end_. subst end_.
  destruct (getClient_cases w) as [[token Htok]|Hno].
  - destruct (w_fs w !! file) as [content|] eqn:Hfile.
    + destruct Hmissing as [?|Hmeta]; [discriminate|].
      rewrite (checkin_action_no_meta w file options token content Htok Hfile Hmeta).
      repeat split; try reflexivity. intros Hc. discriminate.
    + rewrite (checkin_action_no_file w file options token Htok Hfile).
      repeat split; try reflexivity. intros Hc. congruence.
  - rewrite (checkin_action_no_token w file options Hno).
    repeat split; try reflexivity;
      destruct H as [Henv Hne]; rewrite Henv in Hno; cbn in Hno;
      apply is_empty_false in Hne; rewrite Hne in Hno; discriminate.
Qed.

(** The request that [checkin] sends for a sidecar [meta]. *)
Lemma checkin_run (this : GitHubClient) (path content message sha branch : string)
  (w : World R) :
  let p := mkUpdateParams (this_owner this) (this_repo this) path message
             (base64_encode content) (Some sha) branch in
  checkin this path content message sha branch w =
  (match fst (repos_createOrUpdateFileContents (this_token this) p (w_remote w)) with
   | Fulfilled commit => Return (commit_result commit message)
   | Rejected e => Throw e
   end,
   sent (CallCreateOrUpdate p)
     (snd (repos_createOrUpdateFileContents (this_token this) p (w_remote w))) w).
Proof.
  intros p. unfold checkin, bind, ret, octokit_repos_createOrUpdateFileContents.
  fold p. destruct (repos_createOrUpdateFileContents (this_token this) p (w_remote w))
    as [[commit|e] remote']; reflexivity.
Qed.

Lemma createFile_run (this : GitHubClient) (path content message branch : string)
  (w : World R) :
  let p := mkUpdateParams (this_owner this) (this_repo this) path message
             (base64_encode content) None branch in
  createFile this path content message branch w =
  (match fst (repos_createOrUpdateFileContents (this_token this) p (w_remote w)) with
   | Fulfilled commit => Return (commit_result commit message)
   | Rejected e => Throw e
   end,
   sent (CallCreateOrUpdate p)
     (snd (repos_createOrUpdateFileContents (this_token this) p (w_remote w))) w).
Proof.
  intros p. unfold createFile, bind, ret, octokit_repos_createOrUpdateFileContents.
  fold p. destruct (repos_createOrUpdateFileContents (this_token this) p (w_remote w))
    as [[commit|e] remote']; reflexivity.
Qed.

Lemma checkin_action_bad_meta (w : World R) (file : string) (options : CheckinOptions)
  (token content metaText : string) (e : Error) :
  has_token w token ->
  w_fs w !! file = Some content ->
  w_fs w !! (file ++ ".meta.json") = Some metaText ->
  JSON_parse metaText = Rejected e ->
  checkin_action file options w = (Exit 1, print_err ("Error: " ++ message e) w).
Proof.
  intros Htok Hfile Hmeta Hparse. unfold checkin_action.
  rewrite (bind_getClient_ok _ w token Htok).
  run_action. cbn.
  repeat (first [rewrite Hfile | rewrite Hmeta | rewrite Hparse]; cbn). reflexivity.
Qed.

Lemma checkin_action_run (w : World R) (file : string) (options : CheckinOptions)
  (token content metaText : string) (meta : Meta) :
  has_token w token ->
  w_fs w !! file = Some content ->
  w_fs w !! (file ++ ".meta.json") = Some metaText ->
  JSON_parse metaText = Fulfilled meta ->
  let p := checkin_request w token options content meta in
  let answer := repos_createOrUpdateFileContents token p (w_remote w) in
  let w1 := sent (CallCreateOrUpdate p) (snd answer)
              (print_out ("Checking in: " ++ meta_path meta) w) in
  checkin_action file options w =
  match fst answer with
  | Fulfilled commit =>
      let result := commit_result commit (ci_message options) in
      (Return tt,
       print_out (nl ++ "✓ GitHub Pages will update shortly")
         (print_out ("  URL: " ++ cr_url result)
            (print_out ("  Commit: " ++ substring 0 7 (cr_sha result))
               (print_out "✓ File committed successfully"
                  (write_file (file ++ ".meta.json")
                     (JSON_stringify
                        (mkMeta (meta_path meta) (cr_sha result) (meta_branch meta)
                           (meta_checkedOutAt meta) (Some (cr_url result))
                           (Some (w_now w))))
                     w1)))))
  | Rejected e => (Exit 1, print_err ("Error: " ++ message e) w1)
  end.
Proof.
  intros Htok Hfile Hmeta Hparse p answer w1. unfold checkin_action.
  rewrite (bind_getClient_ok _ w token Htok).
  run_action. cbn.
  repeat (first [rewrite Hfile | rewrite Hmeta | rewrite Hparse]; cbn).
  rewrite checkin_run. cbn.
  change (repos_createOrUpdateFileContents token _ (w_remote w)) with answer.
  subst w1. destruct (fst answer); reflexivity.
Qed.


(** A rejected write ends the command with the remote's message and
    status 1; no local file is written. *)
Lemma checkin_action_rejected (w : World R) (file : string) (options : CheckinOptions)
  (token content metaText : string) (meta : Meta) (e : Error) (remote' : R) :
  has_token w token ->
  w_fs w !! file = Some content ->
  w_fs w !! (file ++ ".meta.json") = Some metaText ->
  JSON_parse metaText = Fulfilled meta ->
  repos_createOrUpdateFileContents token
    (checkin_request w token options content meta) (w_remote w) = (Rejected e, remote') ->
  let end_ := checkin_action file options w in
  fst end_ = Exit 1
  /\ w_stderr (snd end_) = (w_stderr w ++ [("Error: " ++ message e)%string])%list
  /\ w_fs (snd end_) = w_fs w
  /\ w_remote (snd end_) = remote'.
Proof.
  intros Htok Hfile Hmeta Hparse Hanswer end_. subst end_.
  rewrite (checkin_action_run w file options token content metaText meta
             Htok Hfile Hmeta Hparse).
  cbn zeta. rewrite Hanswer. cbn. repeat split; reflexivity.
Qed.

(** The sidecar is written only after the remote accepted the write: if
    the local files differ after [checkin], a conditional write was sent and
    fulfilled. *)
Lemma checkin_writes_only_after_success (w : World R) (file : string)
  (options : CheckinOptions) :
  let end_ := checkin_action file options w in
  w_fs (snd end_) <> w_fs w ->
  exists token content meta commit remote',
    has_token w token
    /\ w_fs w !! file = Some content
    /\ repos_createOrUpdateFileContents token
         (checkin_request w token options content meta) (w_remote w)
       = (Fulfilled commit, remote')
    /\ w_calls (snd end_)
       = (w_calls w ++ [CallCreateOrUpdate (checkin_request w token options content meta)])%list
    /\ w_remote (snd end_) = remote'.
Proof.
  intros end_ Hchanged. subst end_.
  destruct (getClient_cases w) as [[token Htok]|Hno];
    [|rewrite (checkin_action_no_token w file options Hno) in Hchanged;
      now contradiction Hchanged].
  destruct (w_fs w !! file) as [content|] eqn:Hfile;
    [|rewrite (checkin_action_no_file w file options token Htok Hfile) in Hchanged;
      now contradiction Hchanged].
  destruct (w_fs w !! (file ++ ".meta.json")) as [metaText|] eqn:Hmeta;
    [|rewrite (checkin_action_no_meta w file options token content Htok Hfile Hmeta)
        in Hchanged; now contradiction Hchanged].
  destruct (JSON_parse metaText) as [meta|e] eqn:Hparse;
    [|rewrite (checkin_action_bad_meta w file options token content metaText e
                 Htok Hfile Hmeta Hparse) in Hchanged; now contradiction Hchanged].
  pose proof (checkin_action_run w file options token content metaText meta
                Htok Hfile Hmeta Hparse) as Hrun.
  cbn zeta in Hrun. rewrite Hrun in *. clear Hrun.
  destruct (repos_createOrUpdateFileContents token
              (checkin_request w token options content meta) (w_remote w))
    as [[commit|e] remote'] eqn:Hanswer; cbn in *.
  - exists token, content, meta, commit, remote'.
    split; [exact Htok|]. repeat split; auto.
  - now contradiction Hchanged.
Qed.

(** *** [update] *)

Lemma print_lines_app (l1 l2 : list string) (w : World R) :
  print_lines l2 (print_lines l1 w) = print_lines (l1 ++ l2) w.
Proof. unfold print_lines. now rewrite fold_left_app. Qed.

Lemma print_lines_frame (lines : list string) (w : World R) :
  print_lines lines w =
  mkWorld (w_env w) (w_fs w) (w_now w) (w_remote w) (w_calls w)
          (w_stdout w ++ lines) (w_stderr w).
Proof.
  revert w. induction lines as [|line lines IH]; intros w.
  - destruct w. cbn. now rewrite app_nil_r.
  - change (print_lines (line :: lines) w) with (print_lines lines (print_out line w)).
    rewrite IH. cbn. now rewrite <- app_assoc.
Qed.

Lemma w_remote_print_lines (lines : list string) (w : World R) :
  w_remote (print_lines lines w) = w_remote w.
Proof. now rewrite print_lines_frame. Qed.

Lemma w_remote_print_out (line : string) (w : World R) :
  w_remote (print_out line w) = w_remote w.
Proof. reflexivity. Qed.

Lemma w_remote_sent (call : RemoteCall) (remote : R) (w : World R) :
  w_remote (sent call remote w) = remote.
Proof. reflexivity. Qed.

Lemma apply_find_replace_run (options : UpdateOptions) (content : string)
  (modified : bool) (w : World R) :
  exists lines,
    apply_find_replace options (content, modified) w =
    (Return (requested_replace options content,
             modified || negb (requested_replace options content =? content)),
     print_lines lines w).
Proof.
  unfold apply_find_replace, requested_replace.
  destruct (uo_find options) as [find|], (uo_replace options) as [replace|];
    try (exists []; cbn; now rewrite String.eqb_refl, orb_false_r).
  destruct (is_empty find);
    [exists []; cbn; now rewrite String.eqb_refl, orb_false_r|].
  rewrite join_split.
  destruct (replace_all find replace content =? content) eqn:E.
  - apply String.eqb_eq in E. rewrite E. eexists [_]. unfold bind, console_log, ret.
    cbn. now rewrite orb_false_r.
  - eexists [_]. unfold bind, console_log, ret. cbn. now rewrite orb_true_r.
Qed.

Lemma apply_append_run (options : UpdateOptions) (content : string)
  (modified : bool) (w : World R) :
  exists lines,
    apply_append options (content, modified) w =
    (Return (content ++ requested_suffix options,
             modified || negb (is_empty (requested_suffix options))),
     print_lines lines w).
Proof.
  unfold apply_append, requested_suffix.
  destruct (uo_append options) as [[|c suffix]|].
  - exists []. cbn. now rewrite append_empty_r, orb_false_r.
  - eexists [_]. unfold bind, console_log, ret. cbn. now rewrite orb_true_r.
  - exists []. cbn. now rewrite append_empty_r, orb_false_r.
Qed.

Lemma apply_prepend_run (options : UpdateOptions) (content : string)
  (modified : bool) (w : World R) :
  exists lines,
    apply_prepend options (content, modified) w =
    (Return (requested_prefix options ++ content,
             modified || negb (is_empty (requested_prefix options))),
     print_lines lines w).
Proof.
  unfold apply_prepend, requested_prefix.
  destruct (uo_prepend options) as [[|c prefix]|].
  - exists []. cbn. now rewrite orb_false_r.
  - eexists [_]. unfold bind, console_log, ret. cbn. now rewrite orb_true_r.
  - exists []. cbn. now rewrite orb_false_r.
Qed.

(** The three transformations in sequence compute [transformed] and
    [modified_flag], and only print. *)
Lemma transformations_run (options : UpdateOptions) (content : string) (w : World R) :
  exists lines, forall A (k : string * bool -> M R A),
    bind (apply_find_replace options (content, false))
      (fun st => bind (apply_append options st)
                   (fun st => bind (apply_prepend options st) k)) w
    = k (transformed options content, modified_flag options content)
        (print_lines lines w).
Proof.
  destruct (apply_find_replace_run options content false w) as (l1 & H1).
  destruct (apply_append_run options (requested_replace options content)
              (false || negb (requested_replace options content =? content))
              (print_lines l1 w)) as (l2 & H2).
  destruct (apply_prepend_run options
              (requested_replace options content ++ requested_suffix options)
              (false || negb (requested_replace options content =? content)
               || negb (is_empty (requested_suffix options)))
              (print_lines l2 (print_lines l1 w))) as (l3 & H3).
  exists (l1 ++ l2 ++ l3)%list. intros A k. unfold bind at 1. rewrite H1.
  unfold bind at 1. rewrite H2. unfold bind at 1. rewrite H3, !print_lines_app.
  reflexivity.
Qed.

Lemma modified_flag_spec (options : UpdateOptions) (content : string) :
  modified_flag options content = true <-> change_made options content.
Proof.
  unfold modified_flag, change_made. cbn zeta.
  rewrite !orb_true_iff, !negb_true_iff, !is_empty_false. split.
  - intros [[H|H]|H].
    + left. now apply String.eqb_neq.
    + right; left. now apply append_changes.
    + right; right. now apply prepend_changes.
  - intros [H|[H|H]].
    + left; left. now apply String.eqb_neq.
    + left; right. intros E. rewrite E, append_empty_r in H. now apply H.
    + right. intros E. rewrite E in H. now apply H.
Qed.

Lemma checkout_served (w : World R) (this : GitHubClient) (path branch : string)
  (item : ContentItem) (encoded : string) :
  serves_file w this path branch item encoded ->
  checkout this path branch w =
  (Return (mkFileContent (base64_decode encoded) (item_sha item) (item_path item)
             (or_else (item_encoding item) "base64")),
   sent (CallGetContent (mkGetContentParams (this_owner this) (this_repo this)
                           path branch)) (w_remote w) w).
Proof.
  intros (Hanswer & Htype & Hcontent & Hne).
  destruct (checkout_outcomes this path branch w) as (_ & _ & _ & Hok & _).
  now apply Hok.
Qed.

(** What [update] does once the checkout has delivered a file. *)
Lemma update_action_run (w : World R) (file : string) (options : UpdateOptions)
  (token : string) (item : ContentItem) (encoded : string) :
  has_token w token ->
  let this := configured_client w token in
  serves_file w this file (uo_branch options) item encoded ->
  let content := base64_decode encoded in
  let request := update_request this file options item (transformed options content) in
  let answer := repos_createOrUpdateFileContents token request (w_remote w) in
  exists lines,
    let w1 := print_lines lines
                (sent (CallGetContent
                         (mkGetContentParams (this_owner this) (this_repo this) file
                            (uo_branch options)))
                   (w_remote w) (print_out ("Checking out: " ++ file) w)) in
    let w2 := sent (CallCreateOrUpdate request) (snd answer)
                (print_out ("Checking in: " ++ file) w1) in
    update_action file options w =
    if modified_flag options content
    then match fst answer with
         | Fulfilled commit =>
             let result := commit_result commit (uo_message options) in
             (Return tt,
              print_out (nl ++ "✓ GitHub Pages will update shortly")
                (print_out ("  URL: " ++ cr_url result)
                   (print_out ("  Commit: " ++ substring 0 7 (cr_sha result))
                      (print_out "✓ File committed successfully" w2))))
         | Rejected e => (Exit 1, print_err ("Error: " ++ message e) w2)
         end
    else (Return tt, print_out "No modifications made. Skipping checkin." w1).
Proof.
  intros Htok this Hserved content request answer.
  destruct (transformations_run options content
              (sent (CallGetContent
                       (mkGetContentParams (this_owner this) (this_repo this) file
                          (uo_branch options)))
                 (w_remote w) (print_out ("Checking out: " ++ file) w)))
    as (lines & Hrun).
  exists lines. cbn zeta.
  unfold update_action. rewrite (bind_getClient_ok _ w token Htok). fold this.
  unfold try_catch. unfold bind at 1. unfold console_log at 1.
  unfold bind at 1.
  rewrite (checkout_served (print_out ("Checking out: " ++ file) w) this file
             (uo_branch options) item encoded Hserved).
  cbn [fc_content fc_sha]. rewrite w_remote_print_out.
  rewrite Hrun. fold content.
  destruct (modified_flag options content); cbn [negb].
  - unfold bind at 1. unfold console_log at 1. unfold bind at 1.
    rewrite checkin_run.
    rewrite w_remote_print_out, w_remote_print_lines, w_remote_sent.
    change (repos_createOrUpdateFileContents _ _ (w_remote w)) with answer.
    destruct (fst answer); reflexivity.
  - reflexivity.
Qed.

(** The requests that [update] has sent when it ends, in the two cases. *)
Lemma update_action_calls (w : World R) (file : string) (options : UpdateOptions)
  (token : string) (item : ContentItem) (encoded : string) :
  has_token w token ->
  let this := configured_client w token in
  serves_file w this file (uo_branch options) item encoded ->
  let content := base64_decode encoded in
  let read := CallGetContent (mkGetContentParams (this_owner this) (this_repo this)
                                file (uo_branch options)) in
  let write := CallCreateOrUpdate
                 (update_request this file options item (transformed options content)) in
  let end_ := update_action file options w in
  if modified_flag options content
  then w_calls (snd end_) = (w_calls w ++ [read; write])%list
  else w_calls (snd end_) = (w_calls w ++ [read])%list
       /\ fst end_ = Return tt
       /\ w_stderr (snd end_) = w_stderr w
       /\ w_remote (snd end_) = w_remote w.
Proof.
  intros Htok this Hserved content read write end_. subst end_.
  destruct (update_action_run w file options token item encoded Htok Hserved)
    as (lines & Hrun).
  cbn zeta in Hrun. rewrite Hrun. clear Hrun. fold this content.
  destruct (modified_flag options content).
  - destruct (fst (repos_createOrUpdateFileContents _ _ _));
      cbn; rewrite print_lines_frame; cbn; now rewrite <- app_assoc.
  - cbn. rewrite print_lines_frame. cbn. repeat split; reflexivity.
Qed.

(** C3.  For every checked-out content and every combination of transform
    options, the three steps of [update], run in the order of the source,
    yield the content in which first all non-overlapping occurrences of the
    find text were replaced, to which then the append text was added as a
    suffix, and to which then the prepend text was added as a prefix.
    Whenever a transform changed the content, [update] sends the read
    followed by the write of exactly that content (transport encoded) under
    the marker of the checkout; otherwise it sends the read alone.  In
    particular on content "hi" with find "h", replace "H", append "!" and
    prepend ">> " the write that [update] sends carries ">> Hi!". *)
Theorem update_submits_transformed_content (w : World R) (file : string)
  (options : UpdateOptions) (token : string) (item : ContentItem) (encoded : string) :
  has_token w token ->
  let this := configured_client w token in
  serves_file w this file (uo_branch options) item encoded ->
  let content := base64_decode encoded in
  let replaced :=
    match uo_find options, uo_replace options with
    | Some find, Some replace =>
        if is_empty find then content else replace_all find replace content
    | _, _ => content
    end in
  let suffixed := replaced ++ requested_suffix options in
  let prefixed := requested_prefix options ++ suffixed in
  let read := CallGetContent (mkGetContentParams (this_owner this) (this_repo this)
                                file (uo_branch options)) in
  let write_of (submitted : string) :=
    CallCreateOrUpdate
      (mkUpdateParams (this_owner this) (this_repo this) file (uo_message options)
         (base64_encode submitted) (Some (item_sha item)) (uo_branch options)) in
  let end_ := update_action file options w in
  (forall w0 : World R,
     fst (bind (apply_find_replace options (content, false))
            (fun st => bind (apply_append options st)
                         (fun st => bind (apply_prepend options st)
                                      (fun st => ret st))) w0)
     = Return (prefixed, modified_flag options content))
  /\ (change_made options content ->
        w_calls (snd end_) = (w_calls w ++ [read; write_of prefixed])%list)
  /\ (~ change_made options content ->
        w_calls (snd end_) = (w_calls w ++ [read])%list)
  /\ (content = "hi" ->
        uo_find options = Some "h" -> uo_replace options = Some "H" ->
        uo_append options = Some "!" -> uo_prepend options = Some ">> " ->
        prefixed = ">> Hi!"
        /\ w_calls (snd end_) = (w_calls w ++ [read; write_of ">> Hi!"])%list).
Proof.
  intros Htok this Hserved content replaced suffixed prefixed read write_of end_.
  pose proof (update_action_calls w file options token item encoded Htok Hserved)
    as Hcalls.
  cbn zeta in Hcalls. fold this content read end_ in Hcalls.
  pose proof (modified_flag_spec options content) as Hspec.
  assert (Hchanged : change_made options content ->
            w_calls (snd end_) = (w_calls w ++ [read; write_of prefixed])%list).
  { intros Hyes. apply Hspec in Hyes. rewrite Hyes in Hcalls. exact Hcalls. }
  split; [|split; [exact Hchanged|split]].
  - intros w0. destruct (transformations_run options content w0) as (lines & Hrun).
    rewrite Hrun. reflexivity.
  - intros Hno. destruct (modified_flag options content).
    + exfalso. apply Hno, Hspec. reflexivity.
    + apply Hcalls.
  - intros Hcontent Hfind Hreplace Happend Hprepend.
    assert (Hvalue : prefixed = ">> Hi!").
    { subst prefixed suffixed replaced. unfold requested_suffix, requested_prefix.
      rewrite Hfind, Hreplace, Happend, Hprepend, Hcontent. reflexivity. }
    split; [exact Hvalue|]. rewrite <- Hvalue. apply Hchanged.
    unfold change_made. cbn zeta. right; left.
    unfold requested_suffix. rewrite Happend. apply append_changes. discriminate.
Qed.

(** C4.  If no transform changed the content, [update] ends with status 0
    after the read alone: no write is sent, nothing goes to the error
    stream and the remote stays as it was.  This is the case in particular
    when the find text does not occur in the checked-out content and
    neither an append nor a prepend text is given.  If at least one
    transform changed the content, the conditional write is sent. *)
Theorem update_checks_in_iff_changed (w : World R) (file : string)
  (options : UpdateOptions) (token : string) (item : ContentItem) (encoded : string) :
  has_token w token ->
  let this := configured_client w token in
  serves_file w this file (uo_branch options) item encoded ->
  let content := base64_decode encoded in
  let read := CallGetContent (mkGetContentParams (this_owner this) (this_repo this)
                                file (uo_branch options)) in
  let write := CallCreateOrUpdate
                 (update_request this file options item (transformed options content)) in
  let end_ := update_action file options w in
  (~ change_made options content ->
     fst end_ = Return tt
     /\ exit_status (fst end_) = 0
     /\ w_calls (snd end_) = (w_calls w ++ [read])%list
     /\ w_stderr (snd end_) = w_stderr w
     /\ w_remote (snd end_) = w_remote w)
  /\ (change_made options content ->
        w_calls (snd end_) = (w_calls w ++ [read; write])%list)
  /\ (forall find replace,
        uo_find options = Some find -> uo_replace options = Some replace ->
        occurs find content = false ->
        truthy (uo_append options) = false -> truthy (uo_prepend options) = false ->
        ~ change_made options content).
Proof.
  intros Htok this Hserved content read write end_.
  pose proof (update_action_calls w file options token item encoded Htok Hserved)
    as Hcalls.
  cbn zeta in Hcalls. fold this content read write end_ in Hcalls.
  pose proof (modified_flag_spec options content) as Hspec.
  split; [|split].
  - intros Hno. destruct (modified_flag options content).
    + exfalso. apply Hno, Hspec. reflexivity.
    + destruct Hcalls as (Hc & Hr & He & Hm). rewrite Hr. auto.
  - intros Hyes. apply Hspec in Hyes. now rewrite Hyes in Hcalls.
  - intros find replace Hfind Hreplace Habsent Happend Hprepend.
    unfold change_made, requested_replace, requested_suffix, requested_prefix.
    rewrite Hfind, Hreplace. cbn zeta.
    assert (Hsame : (if is_empty find then content
                     else replace_all find replace content) = content).
    { destruct (is_empty find); [reflexivity|]. now apply replace_all_absent. }
    rewrite Hsame.
    destruct (uo_append options) as [[|c1 a]|]; cbn in Happend; try discriminate;
      destruct (uo_prepend options) as [[|c2 p]|]; cbn in Hprepend; try discriminate;
      rewrite ?append_empty_r; intros [H|[H|H]]; now apply H.
Qed.

(** *** No local write in [update] *)

Lemma keeps_ret {A} (a : A) : keeps_files (ret (R := R) a).
Proof. intros w. reflexivity. Qed.

Lemma keeps_throw {A} (e : Error) : keeps_files (throw (R := R) (A := A) e).
Proof. intros w. reflexivity. Qed.

Lemma keeps_exit {A} (code : nat) : keeps_files (exit (R := R) (A := A) code).
Proof. intros w. reflexivity. Qed.

Lemma keeps_bind {A B} (m : M R A) (k : A -> M R B) :
  keeps_files m -> (forall a, keeps_files (k a)) -> keeps_files (bind m k).
Proof.
  intros Hm Hk w. unfold bind. specialize (Hm w).
  destruct (m w) as [[a|e|c] w1]; cbn in *; [|assumption..].
  now rewrite Hk.
Qed.

Lemma keeps_try_catch {A} (body : M R A) (handler : Error -> M R A) :
  keeps_files body -> (forall e, keeps_files (handler e)) ->
  keeps_files (try_catch body handler).
Proof.
  intros Hb Hh w. unfold try_catch. specialize (Hb w).
  destruct (body w) as [[a|e|c] w1]; cbn in *; [assumption| |assumption].
  now rewrite Hh.
Qed.

Lemma keeps_console_log (line : string) : keeps_files (console_log (R := R) line).
Proof. intros w. reflexivity. Qed.

Lemma keeps_console_error (line : string) : keeps_files (console_error (R := R) line).
Proof. intros w. reflexivity. Qed.

Lemma keeps_process_env (name : string) : keeps_files (process_env (R := R) name).
Proof. intros w. reflexivity. Qed.

Lemma keeps_getContent (auth : string) (p : GetContentParams) :
  keeps_files (octokit_repos_getContent auth p).
Proof.
  intros w. unfold octokit_repos_getContent.
  destruct (repos_getContent auth p (w_remote w)); reflexivity.
Qed.

Lemma keeps_createOrUpdate (auth : string) (p : UpdateParams) :
  keeps_files (octokit_repos_createOrUpdateFileContents auth p).
Proof.
  intros w. unfold octokit_repos_createOrUpdateFileContents.
  destruct (repos_createOrUpdateFileContents auth p (w_remote w)) as [[c|e] r];
    reflexivity.
Qed.

Ltac frame :=
  repeat first
    [ apply keeps_ret | apply keeps_throw | apply keeps_exit
    | apply keeps_console_log | apply keeps_console_error | apply keeps_process_env
    | apply keeps_getContent | apply keeps_createOrUpdate
    | apply keeps_bind; [|intros]
    | apply keeps_try_catch; [|intros]
    | match goal with
      | |- keeps_files (if ?b then _ else _) => destruct b
      | |- keeps_files (match ?x with _ => _ end) => destruct x
      end ].

Lemma keeps_checkout (this : GitHubClient) (path branch : string) :
  keeps_files (checkout this path branch).
Proof. unfold checkout. frame. Qed.

Lemma keeps_checkin (this : GitHubClient) (path content message sha branch : string) :
  keeps_files (checkin this path content message sha branch).
Proof. unfold checkin. frame. Qed.

Lemma keeps_getClient : keeps_files (getClient (R := R)).
Proof. unfold getClient. frame. Qed.

Lemma keeps_transformations (options : UpdateOptions) (st : string * bool) :
  keeps_files (R := R) (apply_find_replace options st)
  /\ keeps_files (R := R) (apply_append options st)
  /\ keeps_files (R := R) (apply_prepend options st).
Proof.
  destruct st as [content modified].
  unfold apply_find_replace, apply_append, apply_prepend. repeat split; frame.
Qed.

(** C9.  [update] performs no local filesystem write: at its end, however
    it ends and whatever the environment, the remote and the options are,
    the local files (content files and sidecars alike) are those of its
    start; the checked-out content and marker live only in the values passed
    from [checkout] to [checkin]. *)
Theorem update_writes_no_local_file (w : World R) (file : string)
  (options : UpdateOptions) :
  w_fs (snd (update_action file options w)) = w_fs w.
Proof.
  revert w. change (keeps_files (update_action file options)).
  unfold update_action, report_and_exit.
  apply keeps_bind; [apply keeps_getClient | intros client].
  apply keeps_try_catch; [|intros; frame].
  apply keeps_bind; [frame | intros _].
  apply keeps_bind; [apply keeps_checkout | intros result].
  apply keeps_bind; [apply keeps_transformations | intros st1].
  apply keeps_bind; [apply keeps_transformations | intros st2].
  apply keeps_bind; [apply keeps_transformations | intros [content modified]].
  destruct modified; cbn [negb]; [|frame].
  apply keeps_bind; [frame | intros _].
  apply keeps_bind; [apply keeps_checkin | intros commitResult]. frame.
Qed.

(** C10.  The find/replace step of [update] runs only for a non-empty
    [--find] together with a [--replace]: with [--find] absent or empty, or
    [--replace] absent, the step returns the content and the flag as they
    were and prints nothing, and the whole command behaves as without the
    two options; with a non-empty [--find] and any [--replace], the empty
    text included, the content becomes the replacement of all occurrences. *)
Theorem find_replace_needs_both_options (options : UpdateOptions) :
  (truthy (uo_find options) = false \/ uo_replace options = None ->
     (forall st (w : World R), apply_find_replace options st w = (Return st, w))
     /\ (forall file (w : World R),
           update_action file options w
           = update_action file (without_find_replace options) w))
  /\ (forall find replace,
        uo_find options = Some find -> find <> EmptyString ->
        uo_replace options = Some replace ->
        forall content modified (w : World R),
          fst (apply_find_replace options (content, modified) w)
          = Return (replace_all find replace content,
                    modified || negb (replace_all find replace content =? content))).
Proof.
  split.
  - intros Hskip. destruct options as [branch msg find replace append prepend].
    cbn in Hskip. split.
    + intros [content modified] w. unfold apply_find_replace. cbn.
      destruct find as [[|c f]|], replace as [r|]; try reflexivity;
        destruct Hskip; discriminate.
    + intros file w.
      destruct find as [[|c f]|], replace as [r|]; try reflexivity;
        destruct Hskip; discriminate.
  - intros find replace Hfind Hne Hreplace content modified w.
    destruct (apply_find_replace_run options content modified w) as (lines & Hrun).
    rewrite Hrun. unfold requested_replace. rewrite Hfind, Hreplace.
    apply is_empty_false in Hne. now rewrite Hne.
Qed.

End CommandProperties.

(** ** The remote model and the executions against it *)

Section RemoteProperties.

Context {RT : Runtime}.

Lemma marker_inj (r1 r2 : nat) : Remote.marker r1 = Remote.marker r2 -> r1 = r2.
Proof. unfold Remote.marker. apply pretty_nat_inj. Qed.

(** A conditional write whose marker is not the current one is rejected
    with a conflict, and the remote stays as it is. *)
Lemma remote_rejects_other_marker (auth : string) (p : UpdateParams) (r : SpecRemote)
  (sha : string) :
  up_sha p = Some sha ->
  (forall f, r !! Remote.key_of (up_owner p) (up_repo p) (up_branch p) (up_path p) = Some f ->
             sha <> Remote.marker (Remote.rf_revision f)) ->
  Remote.createOrUpdateFileContents auth p r
  = (Rejected (Remote.conflict (up_path p) sha), r).
Proof.
  intros Hsha Hother. unfold Remote.createOrUpdateFileContents. rewrite Hsha.
  destruct (r !! Remote.key_of _ _ _ _) as [f|]; [|reflexivity].
  specialize (Hother f eq_refl). apply String.eqb_neq in Hother. now rewrite Hother.
Qed.

(** A conditional write that is accepted carried the current marker, and
    advances the revision of the file. *)
Lemma remote_accepts_current_marker (auth : string) (p : UpdateParams) (r r' : SpecRemote)
  (sha : string) (commit : Commit) :
  up_sha p = Some sha ->
  Remote.createOrUpdateFileContents auth p r = (Fulfilled commit, r') ->
  exists f,
    r !! Remote.key_of (up_owner p) (up_repo p) (up_branch p) (up_path p) = Some f
    /\ sha = Remote.marker (Remote.rf_revision f)
    /\ r' !! Remote.key_of (up_owner p) (up_repo p) (up_branch p) (up_path p)
       = Some (Remote.mkRemoteFile (S (Remote.rf_revision f)) (up_content p)).
Proof.
  intros Hsha. unfold Remote.createOrUpdateFileContents. rewrite Hsha.
  destruct (r !! Remote.key_of _ _ _ _) as [f|] eqn:Hf; [|discriminate].
  destruct (String.eqb_spec sha (Remote.marker (Remote.rf_revision f))) as [->|];
    [|discriminate].
  unfold Remote.accept. intros [= _ <-]. exists f.
  repeat split. apply lookup_insert_eq.
Qed.

(** No write makes a revision go back. *)
Lemma remote_write_monotone (auth : string) (p : UpdateParams) (r : SpecRemote)
  (k : string * string * string * string) (f : Remote.RemoteFile) :
  r !! k = Some f ->
  exists f', snd (Remote.createOrUpdateFileContents auth p r) !! k = Some f'
             /\ Remote.rf_revision f <= Remote.rf_revision f'.
Proof.
  intros Hk. unfold Remote.createOrUpdateFileContents, Remote.accept.
  set (kp := Remote.key_of (up_owner p) (up_repo p) (up_branch p) (up_path p)).
  assert (Hins : forall g content, r !! kp = Some g ->
            exists f', <[kp := Remote.mkRemoteFile (S (Remote.rf_revision g)) content]> r !! k
                       = Some f' /\ Remote.rf_revision f <= Remote.rf_revision f').
  { intros g content Hg. destruct (decide (kp = k)) as [<-|Hne].
    - rewrite lookup_insert_eq. eexists; split; [reflexivity|].
      cbn. rewrite Hk in Hg. injection Hg as <-. lia.
    - rewrite lookup_insert_ne by assumption. eauto. }
  destruct (up_sha p) as [sha|], (r !! kp) as [g|] eqn:Hg; cbn.
  - destruct (sha =? Remote.marker (Remote.rf_revision g)); cbn; eauto.
  - eauto.
  - eauto.
  - destruct (decide (kp = k)) as [<-|Hne]; [congruence|].
    rewrite lookup_insert_ne by assumption. eauto.
Qed.

Lemma perform_monotone (this : GitHubClient) (call : ClientCall) (ok : bool)
  (w w1 : World SpecRemote) (k : string * string * string * string)
  (f : Remote.RemoteFile) :
  perform this call w = (ok, w1) ->
  w_remote w !! k = Some f ->
  exists f', w_remote w1 !! k = Some f'
             /\ Remote.rf_revision f <= Remote.rf_revision f'.
Proof.
  intros Hperform Hk. destruct call; cbn [perform] in Hperform.
  - rewrite checkout_run in Hperform. injection Hperform as _ <-. cbn. eauto.
  - rewrite checkin_run in Hperform. injection Hperform as _ <-.
    exact (remote_write_monotone (this_token this) _ (w_remote w) k f Hk).
  - rewrite createFile_run in Hperform. injection Hperform as _ <-.
    exact (remote_write_monotone (this_token this) _ (w_remote w) k f Hk).
  - unfold listFiles, bind, ret, octokit_repos_getContent in Hperform.
    destruct (repos_getContent _ _ _) as [[items|item]|e];
      injection Hperform as _ <-; cbn; eauto.
Qed.

(** A [checkin] that returned found its marker current and left the file
    one revision later. *)
Lemma perform_checkin_returned (this : GitHubClient)
  (path content message sha branch : string) (w w1 : World SpecRemote) :
  perform this (DoCheckin path content message sha branch) w = (true, w1) ->
  exists f f1,
    w_remote w !! Remote.key_of (this_owner this) (this_repo this) branch path = Some f
    /\ sha = Remote.marker (Remote.rf_revision f)
    /\ w_remote w1 !! Remote.key_of (this_owner this) (this_repo this) branch path = Some f1
    /\ Remote.rf_revision f1 = S (Remote.rf_revision f).
Proof.
  cbn [perform]. rewrite checkin_run. cbn zeta.
  cbn [repos_createOrUpdateFileContents Remote.octokit].
  destruct (Remote.createOrUpdateFileContents _ _ _) as [[commit|e] r'] eqn:Hanswer;
    cbn; [|discriminate].
  intros [= <-].
  destruct (fun H => remote_accepts_current_marker _ _ _ _ sha commit H Hanswer)
    as (f & Hf & Hsha & Hf1); [reflexivity|].
  cbn in Hf, Hf1. exists f. eexists. repeat split; eauto.
Qed.

(** In an execution, a [checkin] that returns carries the marker of a
    revision that is not older than the revision the file had at the start. *)
Lemma later_checkin_is_current (w w' : World SpecRemote)
  (trace : list (GitHubClient * ClientCall * bool)) :
  steps w trace w' ->
  forall f j this path content message sha branch,
    w_remote w !! Remote.key_of (this_owner this) (this_repo this) branch path = Some f ->
    trace !! j = Some (this, DoCheckin path content message sha branch, true) ->
    exists revision,
      Remote.rf_revision f <= revision /\ sha = Remote.marker revision.
Proof.
  induction 1 as [w|w this0 call ok w1 trace w2 Hperform Hsteps IH];
    intros f j this path content message sha branch Hf Hj.
  - destruct j; discriminate.
  - destruct j as [|j]; cbn in Hj.
    + injection Hj as -> -> ->.
      destruct (perform_checkin_returned _ _ _ _ _ _ _ _ Hperform)
        as (g & g1 & Hg & Hsha & _).
      rewrite Hf in Hg. injection Hg as <-. exists (Remote.rf_revision f). auto.
    + destruct (perform_monotone _ _ _ _ _ _ f Hperform Hf) as (f' & Hf' & Hle).
      destruct (IH f' j this path content message sha branch Hf' Hj)
        as (revision & Hrev & Hsha).
      exists revision. split; [lia | assumption].
Qed.

Lemma run_steps (calls : list (GitHubClient * ClientCall)) (w : World SpecRemote) :
  steps w (fst (run calls w)) (snd (run calls w)).
Proof.
  revert w. induction calls as [|[this call] rest IH]; intros w; cbn [run].
  - constructor.
  - destruct (perform this call w) as [ok w1] eqn:Hperform.
    specialize (IH w1). destruct (run rest w1) as [trace w2]. cbn in *.
    econstructor; eassumption.
Qed.

Lemma no_second_success (w w' : World SpecRemote)
  (trace : list (GitHubClient * ClientCall * bool)) :
  steps w trace w' ->
  forall i j this1 this2 path content1 message1 content2 message2 sha branch,
    i < j ->
    trace !! i = Some (this1, DoCheckin path content1 message1 sha branch, true) ->
    trace !! j = Some (this2, DoCheckin path content2 message2 sha branch, true) ->
    this_owner this1 = this_owner this2 ->
    this_repo this1 = this_repo this2 ->
    False.
Proof.
  induction 1 as [w|w this0 call ok w1 trace w2 Hperform Hsteps IH];
    intros i j this1 this2 path content1 message1 content2 message2 sha branch
           Hlt Hi Hj Howner Hrepo.
  - destruct i; discriminate.
  - destruct j as [|j]; [lia|]. destruct i as [|i]; cbn in Hi, Hj.
    + injection Hi as -> -> ->.
      destruct (perform_checkin_returned _ _ _ _ _ _ _ _ Hperform)
        as (f & f1 & Hf & Hsha & Hf1 & Hnext).
      rewrite Howner, Hrepo in Hf1.
      destruct (later_checkin_is_current _ _ _ Hsteps f1 j this2 path content2
                  message2 sha branch Hf1 Hj) as (revision & Hle & Hsha').
      rewrite Hsha in Hsha'. apply marker_inj in Hsha'. lia.
    + eapply (IH i j); eauto. lia.
Qed.


(** C1.  When the marker saved in the sidecar is not the current marker of
    the remote file (an older marker in particular), [checkin] ends with
    status 1 and the remote's conflict error on the error stream; the
    remote is unchanged and so are the local files, the sidecar with its
    [sha], [lastCommit] and [lastUpdatedAt] among them.  Against any
    remote, the local files differ after [checkin] only if the conditional
    write was sent and fulfilled. *)
Theorem checkin_stale_marker_rejected :
  (forall (w : World SpecRemote) (file : string) (options : CheckinOptions)
          (token content metaText : string) (meta : Meta) (current : Remote.RemoteFile),
     has_token w token ->
     w_fs w !! file = Some content ->
     w_fs w !! (file ++ ".meta.json") = Some metaText ->
     JSON_parse metaText = Fulfilled meta ->
     let request := checkin_request w token options content meta in
     w_remote w !! Remote.key_of (up_owner request) (up_repo request)
                     (up_branch request) (up_path request) = Some current ->
     meta_sha meta <> Remote.marker (Remote.rf_revision current) ->
     let end_ := checkin_action file options w in
     fst end_ = Exit 1
     /\ w_stderr (snd end_)
        = (w_stderr w
             ++ [("Error: " ++ message (Remote.conflict (meta_path meta) (meta_sha meta)))%string])%list
     /\ w_fs (snd end_) = w_fs w
     /\ w_remote (snd end_) = w_remote w)
  /\ (forall (R : Type) (OK : Octokit R) (w : World R) (file : string)
             (options : CheckinOptions),
        let end_ := checkin_action file options w in
        w_fs (snd end_) <> w_fs w ->
        exists token content meta commit remote',
          has_token w token
          /\ w_fs w !! file = Some content
          /\ repos_createOrUpdateFileContents token
               (checkin_request w token options content meta) (w_remote w)
             = (Fulfilled commit, remote')
          /\ w_calls (snd end_)
             = (w_calls w
                  ++ [CallCreateOrUpdate (checkin_request w token options content meta)])%list
          /\ w_remote (snd end_) = remote').
Proof.
  split.
  - intros w file options token content metaText meta current
           Htok Hfile Hmeta Hparse request Hcurrent Hstale end_.
    apply (checkin_action_rejected w file options token content metaText meta
             (Remote.conflict (meta_path meta) (meta_sha meta)) (w_remote w)
             Htok Hfile Hmeta Hparse).
    apply (remote_rejects_other_marker token request (w_remote w) (meta_sha meta));
      [reflexivity|].
    intros f Hf. rewrite Hcurrent in Hf. now injection Hf as <-.
  - intros R OK w file options. apply checkin_writes_only_after_success.
Qed.

End RemoteProperties.

(** ** The properties at work on the sample worlds *)

Lemma sample_has_token {R} (files : gmap string string) (remote : R) :
  has_token (sample_world files remote) "ghp_sample".
Proof. split; [reflexivity | discriminate]. Defined.

Lemma sample_serves_file :
  serves_file (sample_world ∅ sample_remote) sample_client "hello.txt" "main"
    sample_item "aGk=".
Proof. repeat split; try reflexivity. discriminate. Defined.

(** A checkin with the marker of revision 3 while the remote is at
    revision 5. *)
Lemma checkin_stale_marker_rejected_witness :
  let w := sample_world (sample_files 3) sample_remote in
  let end_ := checkin_action (RT := NodeDouble.runtime) "hello.txt"
                sample_checkin_options w in
  (w_fs w !! "hello.txt" = Some "hi there"
   /\ w_remote w !! Remote.key_of "leeasling-gradial" "grady-challenge" "main" "hello.txt"
      = Some (Remote.mkRemoteFile 5 "aGk=")
   /\ Remote.marker 3 <> Remote.marker 5)
  /\ (fst end_ = Exit 1
      /\ w_stderr (snd end_) = ["Error: hello.txt does not match 3"]
      /\ w_fs (snd end_) = w_fs w
      /\ w_remote (snd end_) = w_remote w).
Proof.
  intros w end_.
  assert (H1 : w_fs w !! "hello.txt" = Some "hi there") by reflexivity.
  assert (H2 : w_fs w !! "hello.txt.meta.json"
               = Some (NodeDouble.stringify (sample_meta 3))) by reflexivity.
  assert (H3 : NodeDouble.parse (NodeDouble.stringify (sample_meta 3))
               = Fulfilled (sample_meta 3)) by (vm_compute; reflexivity).
  assert (H4 : w_remote w
               !! Remote.key_of "leeasling-gradial" "grady-challenge" "main" "hello.txt"
               = Some (Remote.mkRemoteFile 5 "aGk=")) by reflexivity.
  assert (H5 : Remote.marker 3 <> Remote.marker 5) by (vm_compute; discriminate).
  split; [auto|].
  exact (proj1 (checkin_stale_marker_rejected (RT := NodeDouble.runtime))
           w "hello.txt" sample_checkin_options "ghp_sample" "hi there"
           (NodeDouble.stringify (sample_meta 3)) (sample_meta 3)
           (Remote.mkRemoteFile 5 "aGk=")
           (sample_has_token _ _) H1 H2 H3 H4 H5).
Defined.


(** [update] on "hi" with find "h", replace "H", append "!" and prepend
    ">> ": the write carries ">> Hi!" in base64. *)
Lemma update_submits_transformed_content_witness :
  let w := sample_world ∅ sample_remote in
  let end_ := update_action (RT := NodeDouble.runtime) "hello.txt"
                sample_update_options w in
  let read := CallGetContent
                (mkGetContentParams "leeasling-gradial" "grady-challenge"
                   "hello.txt" "main") in
  NodeDouble.decode "aGk=" = "hi"
  /\ w_calls (snd end_)
     = [read;
        CallCreateOrUpdate
          (mkUpdateParams "leeasling-gradial" "grady-challenge" "hello.txt"
             "Update content" (NodeDouble.encode ">> Hi!") (Some (Remote.marker 5))
             "main")].
Proof.
  intros w end_ read.
  assert (Hcontent : NodeDouble.decode "aGk=" = "hi") by reflexivity.
  split; [exact Hcontent|].
  destruct (update_submits_transformed_content (RT := NodeDouble.runtime)
              w "hello.txt" sample_update_options "ghp_sample" sample_item "aGk="
              (sample_has_token _ _) sample_serves_file)
    as (_ & _ & _ & Hexample).
  destruct (Hexample Hcontent eq_refl eq_refl eq_refl eq_refl) as (_ & Hcalls).
  exact Hcalls.
Defined.

(** [update] with a find text that does not occur and nothing to append or
    prepend: the read alone, status 0. *)
Lemma update_checks_in_iff_changed_witness :
  let w := sample_world ∅ sample_remote in
  let options := mkUpdateOptions "main" "Update content" (Some "a") (Some "b")
                   None None in
  let end_ := update_action (RT := NodeDouble.runtime) "hello.txt" options w in
  occurs "a" "hi" = false
  /\ fst end_ = Return tt
  /\ exit_status (fst end_) = 0
  /\ w_calls (snd end_)
     = [CallGetContent (mkGetContentParams "leeasling-gradial" "grady-challenge"
                          "hello.txt" "main")]
  /\ w_stderr (snd end_) = []
  /\ w_remote (snd end_) = sample_remote.
Proof.
  intros w options end_.
  assert (Habsent : occurs "a" "hi" = false) by reflexivity.
  split; [exact Habsent|].
  destruct (update_checks_in_iff_changed (RT := NodeDouble.runtime) w "hello.txt"
              options "ghp_sample" sample_item "aGk=" (sample_has_token _ _)
              sample_serves_file) as (Hno & _ & Hcase).
  apply Hno. apply (Hcase "a" "b"); reflexivity || exact Habsent.
Defined.

(** [checkin] of a file that was never checked out. *)
Lemma checkin_requires_local_files_witness :
  let w := sample_world (<["hello.txt" := "hi there"]> ∅) sample_remote in
  let end_ := checkin_action (RT := NodeDouble.runtime) "hello.txt"
                sample_checkin_options w in
  w_fs w !! "hello.txt.meta.json" = None
  /\ exit_status (fst end_) = 1
  /\ w_calls (snd end_) = []
  /\ w_remote (snd end_) = sample_remote
  /\ w_fs (snd end_) = w_fs w.
Proof.
  intros w end_.
  assert (Hmeta : w_fs w !! "hello.txt.meta.json" = None) by reflexivity.
  split; [exact Hmeta|].
  destruct (checkin_requires_local_files (RT := NodeDouble.runtime) w "hello.txt"
              sample_checkin_options (or_intror Hmeta)) as (H1 & H2 & H3 & H4 & _).
  auto.
Defined.

(** [checkout] of the sample file. *)
Lemma checkout_outcomes_witness :
  let w := sample_world ∅ sample_remote in
  repos_getContent "ghp_sample"
    (mkGetContentParams "leeasling-gradial" "grady-challenge" "hello.txt" "main")
    (w_remote w) = Fulfilled (DataObject sample_item)
  /\ fst (checkout (RT := NodeDouble.runtime) sample_client "hello.txt" "main" w)
     = Return (mkFileContent "hi" (Remote.marker 5) "hello.txt" "base64").
Proof.
  intros w. split; [reflexivity|].
  destruct (checkout_outcomes (RT := NodeDouble.runtime) sample_client "hello.txt"
              "main" w) as (_ & _ & _ & Hok & _).
  rewrite (Hok sample_item "aGk="); [reflexivity | reflexivity.. | discriminate].
Defined.

(** C6, the claim as written, fails on a symbolic link: the remote answers
    with a single object, no directory and no 404, that carries content,
    and [checkout] throws instead of returning the decoded content.  It
    fails as well when the remote rejects the read with a status other than
    404: the rejection is thrown on. *)
Lemma checkout_symlink_counterexample :
  let w := sample_world ∅ symlink_remote in
  let w500 := sample_world ∅ failing_remote in
  (repos_getContent "ghp_sample"
     (mkGetContentParams "leeasling-gradial" "grady-challenge" "current" "main")
     (w_remote w) = Fulfilled (DataObject symlink_item)
   /\ truthy (item_content symlink_item) = true
   /\ fst (checkout (RT := NodeDouble.runtime) sample_client "current" "main" w)
      = Throw (new_Error ("Path " ++ dq ++ "current" ++ dq
                            ++ " is not a file (type: symlink)"))
   /\ forall result,
        fst (checkout (RT := NodeDouble.runtime) sample_client "current" "main" w)
        <> Return result)
  /\ (status server_error <> Some 404
      /\ fst (checkout (RT := NodeDouble.runtime) sample_client "current" "main" w500)
         = Throw server_error).
Proof.
  intros w w500. repeat split; try reflexivity.
  - intros result. vm_compute. discriminate.
  - discriminate.
Qed.

(** [listFiles] on a directory with two files and a sub-directory, and on
    a single file. *)
Lemma listFiles_file_or_directory_witness :
  fst (listFiles sample_client "docs" "main"
         (sample_world ∅ listing_remote))
  = Return ["docs/a.md"; "docs/c.md"]
  /\ fst (listFiles sample_client "hello.txt" "main"
            (sample_world ∅ sample_remote))
     = Return ["hello.txt"].
Proof.
  split.
  - destruct (listFiles_file_or_directory sample_client
                "docs" "main" (sample_world ∅ listing_remote)) as (_ & Hdir).
    destruct (Hdir listing eq_refl) as (Hrun & _). rewrite Hrun. reflexivity.
  - destruct (listFiles_file_or_directory sample_client
                "hello.txt" "main" (sample_world ∅ sample_remote)) as (Hfile & _).
    rewrite (Hfile sample_item eq_refl). reflexivity.
Defined.


(** [--find] with the empty text is passed over; [--find h --replace] with
    the empty text deletes every "h". *)
Lemma find_replace_needs_both_options_witness :
  let w := sample_world ∅ sample_remote in
  let skipped := mkUpdateOptions "main" "Update content" (Some EmptyString) (Some "H")
                   (Some "!") None in
  let deleting := mkUpdateOptions "main" "Update content" (Some "h") (Some EmptyString)
                    None None in
  update_action (RT := NodeDouble.runtime) "hello.txt" skipped w
  = update_action (RT := NodeDouble.runtime) "hello.txt" (without_find_replace skipped) w
  /\ fst (apply_find_replace deleting ("hi", false) w) = Return ("i", true).
Proof.
  intros w skipped deleting. split.
  - destruct (find_replace_needs_both_options (RT := NodeDouble.runtime)
                (R := SpecRemote) skipped) as (Hskip & _).
    apply Hskip. left. reflexivity.
  - destruct (find_replace_needs_both_options (RT := NodeDouble.runtime)
                (R := SpecRemote) deleting) as (_ & Happlied).
    rewrite (Happlied "h" EmptyString); [reflexivity | reflexivity | discriminate | reflexivity].
Defined.

(** * Further properties of the program *)

(** ** Replacement: when it changes the content *)

Lemma prefix_append (find s : string) :
  String.prefix find s = true -> exists rest, s = find ++ rest.
Proof.
  revert s. induction find as [|a find IH]; intros s H.
  - exists s. reflexivity.
  - destruct s as [|b s]; cbn in H; [discriminate|].
    destruct (ascii_dec a b) as [->|]; [|discriminate].
    destruct (IH s H) as (rest & ->). exists rest. reflexivity.
Qed.

Lemma drop_chars_append (find rest : string) :
  drop_chars (String.length find) (find ++ rest) = rest.
Proof.
  induction find as [|a find IH]; [destruct rest; reflexivity|].
  rewrite append_String. cbn [String.length drop_chars]. exact IH.
Qed.

Lemma drop_chars_zero (s : string) : drop_chars 0 s = s.
Proof. destruct s; reflexivity. Qed.

(** Replacing a text by itself gives the text back: the scan passes over
    every occurrence and copies the rest. *)
Lemma replace_from_same (find : string) :
  find <> EmptyString ->
  forall s drop, drop <= String.length s ->
    replace_from find find drop s = drop_chars drop s.
Proof.
  intros Hne. induction s as [|c s IH]; intros drop Hdrop.
  - cbn in Hdrop. assert (drop = 0) as -> by lia. reflexivity.
  - cbn [replace_from]. destruct drop as [|k].
    + destruct (String.prefix find (String c s)) eqn:Hp.
      * destruct (prefix_append _ _ Hp) as (rest & Hs).
        destruct find as [|a find]; [congruence|].
        rewrite append_String in Hs. injection Hs as -> ->.
        assert (E : String.length (String a find) - 1 = String.length find)
          by (cbn; lia).
        rewrite E, IH.
        -- now rewrite drop_chars_append.
        -- rewrite append_length. lia.
      * rewrite IH by lia. now rewrite drop_chars_zero.
    + cbn [String.length] in Hdrop. cbn [drop_chars]. apply IH. lia.
Qed.

Lemma replace_all_same (find s : string) :
  find <> EmptyString -> replace_all find find s = s.
Proof.
  intros Hne. unfold replace_all. rewrite replace_from_same by (assumption || lia).
  apply drop_chars_zero.
Qed.

(** The length of the result: every replaced occurrence trades the length
    of [find] for the length of [replace]. *)
Lemma replace_from_length (find replace : string) :
  find <> EmptyString ->
  forall s drop, drop <= String.length s ->
    String.length (replace_from find replace drop s)
      + count_from find drop s * String.length find
    = String.length s - drop + count_from find drop s * String.length replace.
Proof.
  intros Hne. induction s as [|c s IH]; intros drop Hdrop.
  - cbn in Hdrop. assert (drop = 0) as -> by lia. reflexivity.
  - cbn [replace_from count_from]. destruct drop as [|k].
    + destruct (String.prefix find (String c s)) eqn:Hp.
      * destruct (prefix_append _ _ Hp) as (rest & Hs).
        destruct find as [|a find]; [congruence|].
        rewrite append_String in Hs. injection Hs as -> ->.
        assert (E : String.length (String a find) - 1 = String.length find)
          by (cbn; lia).
        rewrite E. specialize (IH (String.length find)).
        rewrite !append_length in *. cbn [String.length] in *.
        specialize (IH ltac:(lia)). rewrite ?append_length. lia.
      * specialize (IH 0 ltac:(lia)). cbn [String.length]. lia.
    + cbn [String.length] in *. specialize (IH k ltac:(lia)). lia.
Qed.

Lemma occurs_count (find s : string) :
  find <> EmptyString -> occurs find s = true -> 1 <= count_from find 0 s.
Proof.
  intros Hne. induction s as [|c s IH]; cbn [occurs count_from].
  - destruct find; [congruence | discriminate].
  - destruct (String.prefix find (String c s)); cbn [orb]; [lia | exact IH].
Qed.

Lemma append_same_length (a b x y : string) :
  String.length a = String.length b -> a ++ x = b ++ y -> a = b.
Proof.
  revert b. induction a as [|c a IH]; intros [|d b] Hlen H; try discriminate.
  - reflexivity.
  - rewrite !append_String in H. injection H as -> H. cbn in Hlen.
    f_equal. apply IH; [lia | assumption].
Qed.

(** Where the text to find occurs and the replacement is another text, the
    content changes. *)
Lemma replace_all_changes (find replace s : string) :
  find <> EmptyString -> replace <> find -> occurs find s = true ->
  replace_all find replace s <> s.
Proof.
  intros Hne Hdiff Hocc.
  destruct (Nat.eq_dec (String.length replace) (String.length find)) as [Hlen|Hlen].
  - unfold replace_all. induction s as [|c s IH]; cbn [occurs replace_from] in *.
    + destruct find; [congruence | discriminate].
    + destruct (String.prefix find (String c s)) eqn:Hp; cbn [orb] in Hocc.
      * destruct (prefix_append _ _ Hp) as (rest & Hs). rewrite Hs.
        intros Heq. apply Hdiff. eapply append_same_length; eassumption.
      * intros [= Heq]. now apply IH.
  - intros Heq. pose proof (replace_from_length find replace Hne s 0 ltac:(lia)) as L.
    pose proof (occurs_count find s Hne Hocc) as C.
    fold (replace_all find replace s) in L. rewrite Heq in L. nia.
Qed.

(** ** More on the commands *)

Section MoreCommandProperties.

Context {RT : Runtime} {R : Type} {OK : Octokit R}.

(** X1.  Without the credential (absent or empty [GITHUB_TOKEN]) every
    action stops in [getClient]: it ends the process with status 1 after
    two lines on the error stream, and has sent no request, written no
    local file, printed nothing on the output stream and left the remote
    alone. *)
Theorem commands_need_credential (w : World R) :
  truthy (w_env w !! "GITHUB_TOKEN") = false ->
  (forall file options, checkout_action file options w = stopped_without_credential w)
  /\ (forall file options, checkin_action file options w = stopped_without_credential w)
  /\ (forall file options, update_action file options w = stopped_without_credential w)
  /\ (forall directory options,
        list_action directory options w = stopped_without_credential w)
  /\ exit_status (fst (stopped_without_credential w)) = 1
  /\ w_calls (snd (stopped_without_credential w)) = w_calls w
  /\ w_fs (snd (stopped_without_credential w)) = w_fs w
  /\ w_stdout (snd (stopped_without_credential w)) = w_stdout w
  /\ w_remote (snd (stopped_without_credential w)) = w_remote w.
Proof.
  intros H. repeat split; intros; apply bind_getClient_missing; assumption.
Qed.

(** Either the remote serves a file with content, or [checkout] throws. *)
Lemma checkout_served_or_thrown (this : GitHubClient) (path branch : string)
  (w : World R) :
  (exists item encoded, serves_file w this path branch item encoded)
  \/ (exists e, fst (checkout this path branch w) = Throw e).
Proof.
  rewrite checkout_run. cbn [fst]. unfold serves_file.
  destruct (repos_getContent _ _ _) as [[items|item]|e]; [right; eauto | | ].
  - destruct (String.eqb_spec (item_type item) "file") as [Ht|Ht]; [|right; eauto].
    destruct (item_content item) as [[|c encoded]|] eqn:Hc; cbn; [right; eauto | | right; eauto].
    left. exists item, (String c encoded). repeat split; auto; discriminate.
  - right. destruct (bool_decide (status e = Some 404)); eauto.
Qed.

Lemma checkout_after_print (this : GitHubClient) (path branch line : string)
  (w : World R) :
  checkout this path branch (print_out line w) =
  (fst (checkout this path branch w),
   sent (CallGetContent (read_request this path branch)) (w_remote w)
     (print_out line w)).
Proof. rewrite !checkout_run. reflexivity. Qed.

Lemma update_action_failed (w : World R) (file : string)
  (options : UpdateOptions) (token : string) (e : Error) :
  has_token w token ->
  let this := configured_client w token in
  fst (checkout this file (uo_branch options) w) = Throw e ->
  update_action file options w =
  (Exit 1,
   print_err ("Error: " ++ message e)
     (sent (CallGetContent (read_request this file (uo_branch options))) (w_remote w)
        (print_out ("Checking out: " ++ file) w))).
Proof.
  intros Htok this Hthrown. unfold update_action.
  rewrite (bind_getClient_ok _ w token Htok). fold this.
  unfold try_catch. unfold bind at 1. unfold console_log at 1. unfold bind at 1.
  rewrite checkout_after_print, Hthrown. reflexivity.
Qed.

(** X2.  When the checkout fails, [update] ends with status 1 and the
    message of the error on the error stream; it has sent the read and
    nothing else, so no write reaches the remote, and the transformations
    are not run: the output stream holds the one line of the checkout. *)
Theorem update_stops_at_failed_checkout (w : World R) (file : string)
  (options : UpdateOptions) (token : string) (e : Error) :
  has_token w token ->
  let this := configured_client w token in
  fst (checkout this file (uo_branch options) w) = Throw e ->
  let end_ := update_action file options w in
  fst end_ = Exit 1
  /\ w_calls (snd end_)
     = (w_calls w ++ [CallGetContent (read_request this file (uo_branch options))])%list
  /\ w_remote (snd end_) = w_remote w
  /\ w_stderr (snd end_) = (w_stderr w ++ [("Error: " ++ message e)%string])%list
  /\ w_stdout (snd end_) = (w_stdout w ++ [("Checking out: " ++ file)%string])%list.
Proof.
  intros Htok this Hthrown end_. subst end_.
  rewrite (update_action_failed w file options token e Htok Hthrown).
  repeat split; reflexivity.
Qed.

(** X3.  Whatever the world and the options, [update] sends nothing, or
    the read alone, or the read followed by one write; the write is for
    the path and branch that were read, in the client's repository, and it
    always carries a revision marker as precondition. *)
Theorem update_sends_read_then_conditional_write (w : World R) (file : string)
  (options : UpdateOptions) :
  let sent_ := w_calls (snd (update_action file options w)) in
  sent_ = w_calls w
  \/ exists this,
       let read := CallGetContent (read_request this file (uo_branch options)) in
       sent_ = (w_calls w ++ [read])%list
       \/ exists p marker,
            sent_ = (w_calls w ++ [read; CallCreateOrUpdate p])%list
            /\ up_owner p = this_owner this /\ up_repo p = this_repo this
            /\ up_path p = file /\ up_branch p = uo_branch options
            /\ up_sha p = Some marker.
Proof.
  intros sent_. subst sent_.
  destruct (getClient_cases w) as [[token Htok]|Hno].
  - right. exists (configured_client w token).
    destruct (checkout_served_or_thrown (configured_client w token) file
                (uo_branch options) w) as [(item & encoded & Hserved)|(e & He)].
    + pose proof (update_action_calls w file options token item encoded Htok Hserved)
        as Hcalls.
      cbn zeta in Hcalls. destruct (modified_flag options (base64_decode encoded)).
      * right. eexists _, (item_sha item). split; [exact Hcalls|]. repeat split.
      * left. apply Hcalls.
    + left. rewrite (update_action_failed w file options token e Htok He).
      reflexivity.
  - left. unfold update_action. rewrite (bind_getClient_missing _ w Hno). reflexivity.
Qed.

(** X4.  A [--replace] text equal to the [--find] text changes nothing,
    also where the text occurs: the step prints that the text was not
    found and leaves content and flag as they were, and with nothing to
    append or prepend [update] returns after the read without a write. *)
Theorem update_same_replacement_is_no_change (w : World R) (file : string)
  (options : UpdateOptions) (token : string) (item : ContentItem)
  (encoded find : string) :
  has_token w token ->
  let this := configured_client w token in
  serves_file w this file (uo_branch options) item encoded ->
  uo_find options = Some find -> find <> EmptyString ->
  uo_replace options = Some find ->
  truthy (uo_append options) = false -> truthy (uo_prepend options) = false ->
  let end_ := update_action file options w in
  (forall content modified (w0 : World R),
     apply_find_replace options (content, modified) w0
     = (Return (content, modified),
        print_out ("⚠ Text " ++ dq ++ find ++ dq ++ " not found in file") w0))
  /\ fst end_ = Return tt
  /\ w_calls (snd end_)
     = (w_calls w ++ [CallGetContent (read_request this file (uo_branch options))])%list
  /\ w_remote (snd end_) = w_remote w.
Proof.
  intros Htok this Hserved Hfind Hne Hreplace Happend Hprepend end_. split.
  - intros content modified w0. unfold apply_find_replace.
    rewrite Hfind, Hreplace. apply is_empty_false in Hne. rewrite Hne.
    rewrite join_split, replace_all_same by now apply is_empty_false.
    rewrite String.eqb_refl. reflexivity.
  - pose proof (update_action_calls w file options token item encoded Htok Hserved)
      as Hcalls.
    cbn zeta in Hcalls. fold this end_ in Hcalls.
    assert (Hflag : modified_flag options (base64_decode encoded) = false).
    { unfold modified_flag, requested_replace, requested_suffix, requested_prefix.
      rewrite Hfind, Hreplace. apply is_empty_false in Hne. rewrite Hne.
      rewrite replace_all_same by now apply is_empty_false.
      rewrite String.eqb_refl.
      destruct (uo_append options) as [[|c1 a]|]; cbn in Happend; try discriminate;
        destruct (uo_prepend options) as [[|c2 p]|]; cbn in Hprepend;
        try discriminate; reflexivity. }
    rewrite Hflag in Hcalls. destruct Hcalls as (Hc & Hr & _ & Hm). auto.
Qed.

(** X5.  Where the [--find] text occurs in the checked-out content and the
    [--replace] text is another text (the empty text included), the
    content changes and [update] sends the write, whatever the append and
    prepend options are. *)
Theorem update_replacement_checks_in (w : World R) (file : string)
  (options : UpdateOptions) (token : string) (item : ContentItem)
  (encoded find replace : string) :
  has_token w token ->
  let this := configured_client w token in
  serves_file w this file (uo_branch options) item encoded ->
  let content := base64_decode encoded in
  uo_find options = Some find -> find <> EmptyString ->
  uo_replace options = Some replace -> replace <> find ->
  occurs find content = true ->
  replace_all find replace content <> content
  /\ w_calls (snd (update_action file options w))
     = (w_calls w
          ++ [CallGetContent (read_request this file (uo_branch options));
              CallCreateOrUpdate
                (update_request this file options item (transformed options content))])%list.
Proof.
  intros Htok this Hserved content Hfind Hne Hreplace Hdiff Hocc.
  pose proof (replace_all_changes find replace content Hne Hdiff Hocc) as Hchanged.
  split; [exact Hchanged|].
  pose proof (update_action_calls w file options token item encoded Htok Hserved)
    as Hcalls.
  cbn zeta in Hcalls. fold this content in Hcalls.
  assert (Hflag : modified_flag options content = true).
  { apply modified_flag_spec. left. unfold requested_replace.
    rewrite Hfind, Hreplace. apply is_empty_false in Hne. now rewrite Hne. }
  now rewrite Hflag in Hcalls.
Qed.

End MoreCommandProperties.

(** ** The [checkout] command and the round trip *)

Section CheckoutCommandProperties.

Context {RT : Runtime} {R : Type} {OK : Octokit R}.

Lemma sidecar_path_differs (path : string) : path ++ ".meta.json" <> path.
Proof. apply append_changes. discriminate. Qed.

Lemma checkout_action_ok (w : World R) (file : string) (options : CheckoutOptions)
  (token : string) (item : ContentItem) (encoded : string) :
  has_token w token ->
  let this := configured_client w token in
  serves_file w this file (co_branch options) item encoded ->
  let out := output_path file options in
  checkout_action file options w =
  (Return tt,
   print_out ("  SHA: " ++ item_sha item)
     (print_out ("✓ Metadata saved to: " ++ (out ++ ".meta.json"))
        (print_out ("✓ File saved to: " ++ out)
           (write_file (out ++ ".meta.json")
              (JSON_stringify
                 (mkMeta (item_path item) (item_sha item) (Some (co_branch options))
                    (w_now w) None None))
              (write_file out (base64_decode encoded)
                 (sent (CallGetContent (read_request this file (co_branch options)))
                    (w_remote w) (print_out ("Checking out: " ++ file) w))))))).
Proof.
  intros Htok this Hserved out. unfold checkout_action.
  rewrite (bind_getClient_ok _ w token Htok). fold this.
  unfold try_catch. unfold bind at 1. unfold console_log at 1. unfold bind at 1.
  rewrite checkout_after_print, (checkout_served w this file _ item encoded Hserved).
  reflexivity.
Qed.

(** X6.  A successful [checkout] command returns with the content at the
    output path ([--output], or else the base name of the remote path) and
    the sidecar beside it, holding the path and marker that the remote
    reported, the branch of the options and the time; the two files do not
    collide, every other local file is as before, one read was sent, and
    neither the remote nor the error stream changed. *)
Theorem checkout_action_writes_file_and_sidecar (w : World R) (file : string)
  (options : CheckoutOptions) (token : string) (item : ContentItem) (encoded : string) :
  has_token w token ->
  let this := configured_client w token in
  serves_file w this file (co_branch options) item encoded ->
  let out := or_else (co_output options) (path_basename file) in
  let sidecar := (out ++ ".meta.json")%string in
  let end_ := checkout_action file options w in
  fst end_ = Return tt
  /\ w_fs (snd end_) !! out = Some (base64_decode encoded)
  /\ w_fs (snd end_) !! sidecar
     = Some (JSON_stringify
               (mkMeta (item_path item) (item_sha item) (Some (co_branch options))
                  (w_now w) None None))
  /\ (forall path, path <> out -> path <> sidecar ->
        w_fs (snd end_) !! path = w_fs w !! path)
  /\ w_calls (snd end_)
     = (w_calls w ++ [CallGetContent (read_request this file (co_branch options))])%list
  /\ w_remote (snd end_) = w_remote w
  /\ w_stderr (snd end_) = w_stderr w.
Proof.
  intros Htok this Hserved out sidecar end_. subst end_.
  rewrite (checkout_action_ok w file options token item encoded Htok Hserved).
  fold this. change (output_path file options) with out. fold sidecar. cbn.
  repeat split.
  - rewrite lookup_insert_ne by apply sidecar_path_differs. apply lookup_insert_eq.
  - apply lookup_insert_eq.
  - intros path Hout Hside. now rewrite !lookup_insert_ne by congruence.
Qed.

Lemma checkout_action_failed (w : World R) (file : string)
  (options : CheckoutOptions) (token : string) (e : Error) :
  has_token w token ->
  let this := configured_client w token in
  fst (checkout this file (co_branch options) w) = Throw e ->
  checkout_action file options w =
  (Exit 1,
   print_err ("Error: " ++ message e)
     (sent (CallGetContent (read_request this file (co_branch options))) (w_remote w)
        (print_out ("Checking out: " ++ file) w))).
Proof.
  intros Htok this Hthrown. unfold checkout_action.
  rewrite (bind_getClient_ok _ w token Htok). fold this.
  unfold try_catch. unfold bind at 1. unfold console_log at 1. unfold bind at 1.
  rewrite checkout_after_print, Hthrown. reflexivity.
Qed.

(** X7.  When the fetch fails, the [checkout] command ends with status 1
    and the error's message on the error stream, and no local file is
    created or changed. *)
Theorem checkout_action_failure_writes_nothing (w : World R) (file : string)
  (options : CheckoutOptions) (token : string) (e : Error) :
  has_token w token ->
  let this := configured_client w token in
  fst (checkout this file (co_branch options) w) = Throw e ->
  let end_ := checkout_action file options w in
  fst end_ = Exit 1
  /\ w_fs (snd end_) = w_fs w
  /\ w_stderr (snd end_) = (w_stderr w ++ [("Error: " ++ message e)%string])%list
  /\ w_calls (snd end_)
     = (w_calls w ++ [CallGetContent (read_request this file (co_branch options))])%list.
Proof.
  intros Htok this Hthrown end_. subst end_.
  rewrite (checkout_action_failed w file options token e Htok Hthrown).
  repeat split; reflexivity.
Qed.

(** X8.  Checkout followed by checkin: after a successful [checkout]
    command, and given that the sidecar text parses back to the record
    that was written, a [checkin] of the output file sends one conditional
    write whose precondition is the marker that the checkout fetched, for
    the path that the remote reported, with the content as it was decoded
    (encoded again), on the branch by precedence of the [checkin] flag
    over the branch of the checkout. *)
Theorem checkout_then_checkin_sends_fetched_marker (w : World R) (file : string)
  (co : CheckoutOptions) (ci : CheckinOptions) (token : string)
  (item : ContentItem) (encoded : string) :
  has_token w token ->
  let this := configured_client w token in
  serves_file w this file (co_branch co) item encoded ->
  let meta := mkMeta (item_path item) (item_sha item) (Some (co_branch co))
                (w_now w) None None in
  JSON_parse (JSON_stringify meta) = Fulfilled meta ->
  let out := or_else (co_output co) (path_basename file) in
  let w1 := snd (checkout_action file co w) in
  w_calls (snd (checkin_action out ci w1))
  = (w_calls w
       ++ [CallGetContent (read_request this file (co_branch co));
           CallCreateOrUpdate
             (mkUpdateParams (this_owner this) (this_repo this) (item_path item)
                (ci_message ci) (base64_encode (base64_decode encoded))
                (Some (item_sha item))
                (or_else (or_opt (ci_branch ci) (Some (co_branch co))) "main"))])%list.
Proof.
  intros Htok this Hserved meta Hparse out w1.
  assert (Hw1 : w1 = snd (checkout_action file co w)) by reflexivity.
  rewrite (checkout_action_ok w file co token item encoded Htok Hserved) in Hw1.
  fold this in Hw1. change (output_path file co) with out in Hw1. cbn [snd] in Hw1.
  assert (Htok1 : has_token w1 token) by (rewrite Hw1; exact Htok).
  assert (Hfile : w_fs w1 !! out = Some (base64_decode encoded)).
  { rewrite Hw1. cbn. rewrite lookup_insert_ne by apply sidecar_path_differs.
    apply lookup_insert_eq. }
  assert (Hmeta : w_fs w1 !! (out ++ ".meta.json") = Some (JSON_stringify meta)).
  { rewrite Hw1. cbn. apply lookup_insert_eq. }
  rewrite (checkin_action_run w1 out ci token (base64_decode encoded)
             (JSON_stringify meta) meta Htok1 Hfile Hmeta Hparse).
  cbn zeta.
  assert (Hcalls : w_calls w1
                   = (w_calls w ++ [CallGetContent (read_request this file (co_branch co))])%list)
    by (rewrite Hw1; reflexivity).
  assert (Hclient : configured_client w1 token = this) by (rewrite Hw1; reflexivity).
  unfold checkin_request. rewrite Hclient.
  destruct (fst (repos_createOrUpdateFileContents _ _ _)); cbn;
    rewrite Hcalls, <- app_assoc; reflexivity.
Qed.

End CheckoutCommandProperties.

(** ** What [checkin] can do to the local files, and how it ends *)

Section CheckinCommandProperties.

Context {RT : Runtime} {R : Type} {OK : Octokit R}.

(** The two ways in which the [checkin] command ends. *)
Lemma checkin_action_cases (w : World R) (file : string) (options : CheckinOptions) :
  let end_ := checkin_action file options w in
  (fst end_ = Exit 1 /\ w_fs (snd end_) = w_fs w)
  \/ exists token content metaText meta commit remote',
       has_token w token
       /\ w_fs w !! file = Some content
       /\ w_fs w !! (file ++ ".meta.json") = Some metaText
       /\ JSON_parse metaText = Fulfilled meta
       /\ repos_createOrUpdateFileContents token
            (checkin_request w token options content meta) (w_remote w)
          = (Fulfilled commit, remote')
       /\ fst end_ = Return tt
       /\ w_fs (snd end_)
          = <[(file ++ ".meta.json")%string
              := JSON_stringify
                   (mkMeta (meta_path meta)
                      (cr_sha (commit_result commit (ci_message options)))
                      (meta_branch meta) (meta_checkedOutAt meta)
                      (Some (cr_url (commit_result commit (ci_message options))))
                      (Some (w_now w)))]> (w_fs w).
Proof.
  intros end_. subst end_.
  destruct (getClient_cases w) as [[token Htok]|Hno];
    [|rewrite (checkin_action_no_token w file options Hno); left; split; reflexivity].
  destruct (w_fs w !! file) as [content|] eqn:Hfile;
    [|rewrite (checkin_action_no_file w file options token Htok Hfile);
      left; split; reflexivity].
  destruct (w_fs w !! (file ++ ".meta.json")) as [metaText|] eqn:Hmeta;
    [|rewrite (checkin_action_no_meta w file options token content Htok Hfile Hmeta);
      left; split; reflexivity].
  destruct (JSON_parse metaText) as [meta|e] eqn:Hparse;
    [|rewrite (checkin_action_bad_meta w file options token content metaText e
                 Htok Hfile Hmeta Hparse); left; split; reflexivity].
  rewrite (checkin_action_run w file options token content metaText meta
             Htok Hfile Hmeta Hparse).
  cbn zeta.
  destruct (repos_createOrUpdateFileContents token
              (checkin_request w token options content meta) (w_remote w))
    as [[commit|e] remote'] eqn:Hanswer; cbn [fst snd].
  - right. exists token, content, metaText, meta, commit, remote'.
    repeat split; auto; apply Htok.
  - left. split; reflexivity.
Qed.

(** X9.  The only local file that [checkin] can create or change is the
    sidecar: every other path, the content file among them, holds after the
    command what it held before, however the command ends. *)
Theorem checkin_touches_only_sidecar (w : World R) (file : string)
  (options : CheckinOptions) :
  let end_ := checkin_action file options w in
  (forall path, path <> (file ++ ".meta.json")%string ->
     w_fs (snd end_) !! path = w_fs w !! path)
  /\ w_fs (snd end_) !! file = w_fs w !! file.
Proof.
  intros end_.
  assert (H : forall path, path <> (file ++ ".meta.json")%string ->
                w_fs (snd end_) !! path = w_fs w !! path).
  { intros path Hpath.
    destruct (checkin_action_cases w file options)
      as [[_ Hsame]|(token & content & metaText & meta & commit & remote' & H)].
    - fold end_ in Hsame. now rewrite Hsame.
    - destruct H as (_ & _ & _ & _ & _ & _ & Hfs). fold end_ in Hfs.
      rewrite Hfs. apply lookup_insert_ne. congruence. }
  split; [exact H|]. apply H. intros E. symmetry in E.
  now apply sidecar_path_differs in E.
Qed.

(** X10.  [checkin] ends with status 0 or 1.  It ends with status 0 only
    when the credential, the content file and a sidecar that parses were
    there and the remote fulfilled the write, and then the sidecar holds
    the record with the marker of the new commit; with status 1 the local
    files are untouched. *)
Theorem checkin_exit_status (w : World R) (file : string) (options : CheckinOptions) :
  let end_ := checkin_action file options w in
  (exit_status (fst end_) = 0 \/ exit_status (fst end_) = 1)
  /\ (exit_status (fst end_) = 1 -> w_fs (snd end_) = w_fs w)
  /\ (exit_status (fst end_) = 0 ->
        exists token content metaText meta commit remote',
          has_token w token
          /\ w_fs w !! file = Some content
          /\ w_fs w !! (file ++ ".meta.json") = Some metaText
          /\ JSON_parse metaText = Fulfilled meta
          /\ repos_createOrUpdateFileContents token
               (checkin_request w token options content meta) (w_remote w)
             = (Fulfilled commit, remote')
          /\ w_fs (snd end_) !! (file ++ ".meta.json")
             = Some (JSON_stringify
                       (mkMeta (meta_path meta)
                          (or_else (commit_sha commit) EmptyString)
                          (meta_branch meta) (meta_checkedOutAt meta)
                          (Some (or_else (commit_html_url commit) EmptyString))
                          (Some (w_now w))))).
Proof.
  intros end_. subst end_.
  destruct (checkin_action_cases w file options)
    as [[Hexit Hsame]|(token & content & metaText & meta & commit & remote' & H)].
  - rewrite Hexit. cbn. split; [auto|]. split; [auto | discriminate].
  - destruct H as (Htok & Hfile & Hmeta & Hparse & Hanswer & Hret & Hfs).
    rewrite Hret. cbn. split; [auto|]. split; [discriminate|]. intros _.
    exists token, content, metaText, meta, commit, remote'.
    repeat split; auto; try apply Htok.
    rewrite Hfs. apply lookup_insert_eq.
Qed.

End CheckinCommandProperties.

(** ** Listing *)

Section ListProperties.

Context {RT : Runtime} {R : Type} {OK : Octokit R}.

Lemma listFiles_run (this : GitHubClient) (path branch : string) (w : World R) :
  listFiles this path branch w =
  (match repos_getContent (this_token this) (read_request this path branch)
           (w_remote w) with
   | Fulfilled (DataObject item) => Return [item_path item]
   | Fulfilled (DataArray items) => Return (file_paths items)
   | Rejected e => Throw e
   end,
   sent (CallGetContent (read_request this path branch)) (w_remote w) w).
Proof.
  unfold listFiles, bind, ret, octokit_repos_getContent, read_request.
  destruct (repos_getContent _ _ _) as [[items|item]|e]; cbn;
    rewrite ?file_paths_filter; reflexivity.
Qed.

(** X11.  [listFiles] and [checkout] agree on what a path is: where
    [checkout] returns a file, [listFiles] of the same path returns exactly
    the one path that [checkout] reports; and where [listFiles] returns
    anything but a single path, [checkout] fails with "is a directory, not
    a file". *)
Theorem listFiles_agrees_with_checkout (this : GitHubClient) (path branch : string)
  (w : World R) :
  (forall result, fst (checkout this path branch w) = Return result ->
     fst (listFiles this path branch w) = Return [fc_path result])
  /\ (forall paths, fst (listFiles this path branch w) = Return paths ->
        length paths <> 1 ->
        fst (checkout this path branch w)
        = Throw (new_Error ("Path " ++ dq ++ path ++ dq ++ " is a directory, not a file"))).
Proof.
  rewrite checkout_run, listFiles_run. unfold read_request. cbn [fst].
  destruct (repos_getContent _ _ _) as [[items|item]|e]; split.
  - discriminate.
  - reflexivity.
  - destruct (item_type item =? "file"); [|discriminate].
    destruct (truthy (item_content item)); [|discriminate].
    intros result [= <-]. reflexivity.
  - intros paths [= <-] Hlen. now contradiction Hlen.
  - destruct (bool_decide (status e = Some 404)); discriminate.
  - discriminate.
Qed.

Lemma forEach_log_run (files : list string) (w : World R) :
  forEach_log files w
  = (Return tt, print_lines (List.map (fun file => "  " ++ file) files) w).
Proof.
  revert w. induction files as [|file rest IH]; intros w; [reflexivity|].
  cbn [forEach_log List.map]. unfold bind, console_log. now rewrite IH.
Qed.

(** X12.  The [list] command sends one read for the directory (the
    repository root when none is given).  When the listing arrives it
    returns after printing the heading, which names the directory or
    "root" for the empty one, and then each listed path on a line of its
    own, indented, in order; when the read fails it ends with status 1 and
    the error's message, having printed nothing on the output stream. *)
Theorem list_action_prints_listing (w : World R) (directory : option string)
  (options : ListOptions) (token : string) :
  has_token w token ->
  let this := configured_client w token in
  let dir := match directory with Some d => d | None => EmptyString end in
  let heading := ("Files in " ++ (if is_empty dir then "root" else dir) ++ ":")%string in
  let read := CallGetContent (read_request this dir (lo_branch options)) in
  (forall files, fst (listFiles this dir (lo_branch options) w) = Return files ->
     list_action directory options w
     = (Return tt,
        print_lines (heading :: List.map (fun file => "  " ++ file) files)
          (sent read (w_remote w) w)))
  /\ (forall e, fst (listFiles this dir (lo_branch options) w) = Throw e ->
        list_action directory options w
        = (Exit 1, print_err ("Error: " ++ message e) (sent read (w_remote w) w))).
Proof.
  intros Htok this dir heading read. split.
  - intros files Hfiles. unfold list_action.
    rewrite (bind_getClient_ok _ w token Htok). fold this dir.
    unfold try_catch. unfold bind at 1.
    rewrite listFiles_run in *. cbn [fst] in Hfiles. rewrite Hfiles.
    unfold bind, console_log. rewrite forEach_log_run. reflexivity.
  - intros e He. unfold list_action.
    rewrite (bind_getClient_ok _ w token Htok). fold this dir.
    unfold try_catch. unfold bind at 1.
    rewrite listFiles_run in *. cbn [fst] in He. rewrite He. reflexivity.
Qed.

End ListProperties.

(** ** How the actions end *)

Section EndingProperties.

Context {RT : Runtime} {R : Type} {OK : Octokit R}.

Lemma silent_ret {A} (a : A) : silent (ret (R := R) a).
Proof. intros w. split; [reflexivity | discriminate]. Qed.

Lemma silent_throw {A} (e : Error) : silent (throw (R := R) (A := A) e).
Proof. intros w. split; [reflexivity | discriminate]. Qed.

Lemma silent_bind {A B} (m : M R A) (k : A -> M R B) :
  silent m -> (forall a, silent (k a)) -> silent (bind m k).
Proof.
  intros Hm Hk w. unfold bind. destruct (Hm w) as [Herr Hexit].
  destruct (m w) as [[a|e|c] w1]; cbn in *.
  - destruct (Hk a w1) as [Herr1 Hexit1]. split; [congruence | assumption].
  - split; [assumption | discriminate].
  - now contradiction (Hexit c).
Qed.

Lemma silent_try_catch {A} (body : M R A) (handler : Error -> M R A) :
  silent body -> (forall e, silent (handler e)) -> silent (try_catch body handler).
Proof.
  intros Hb Hh w. unfold try_catch. destruct (Hb w) as [Herr Hexit].
  destruct (body w) as [[a|e|c] w1]; cbn in *.
  - split; [assumption | discriminate].
  - destruct (Hh e w1) as [Herr1 Hexit1]. split; [congruence | assumption].
  - now contradiction (Hexit c).
Qed.

Lemma silent_console_log (line : string) : silent (console_log (R := R) line).
Proof. intros w. split; [reflexivity | discriminate]. Qed.

Lemma silent_Date : silent (Date_now_toISOString (R := R)).
Proof. intros w. split; [reflexivity | discriminate]. Qed.

Lemma silent_existsSync (path : string) : silent (fs_existsSync (R := R) path).
Proof. intros w. split; [reflexivity | discriminate]. Qed.

Lemma silent_readFileSync (path : string) : silent (fs_readFileSync (R := R) path).
Proof.
  intros w. unfold fs_readFileSync.
  destruct (w_fs w !! path); split; (reflexivity || discriminate).
Qed.

Lemma silent_writeFileSync (path data : string) :
  silent (fs_writeFileSync (R := R) path data).
Proof. intros w. split; [reflexivity | discriminate]. Qed.

Lemma silent_JSON_parse (text : string) : silent (JSON_parse_M (R := R) text).
Proof.
  intros w. unfold JSON_parse_M.
  destruct (JSON_parse text); split; (reflexivity || discriminate).
Qed.

Lemma silent_getContent (auth : string) (p : GetContentParams) :
  silent (octokit_repos_getContent auth p).
Proof.
  intros w. unfold octokit_repos_getContent.
  destruct (repos_getContent auth p (w_remote w)); split; (reflexivity || discriminate).
Qed.

Lemma silent_createOrUpdate (auth : string) (p : UpdateParams) :
  silent (octokit_repos_createOrUpdateFileContents auth p).
Proof.
  intros w. unfold octokit_repos_createOrUpdateFileContents.
  destruct (repos_createOrUpdateFileContents auth p (w_remote w)) as [[c|e] r];
    split; (reflexivity || discriminate).
Qed.

Ltac quiet :=
  repeat first
    [ apply silent_ret | apply silent_throw | apply silent_console_log
    | apply silent_Date | apply silent_existsSync | apply silent_readFileSync
    | apply silent_writeFileSync | apply silent_JSON_parse
    | apply silent_getContent | apply silent_createOrUpdate
    | apply silent_bind; [|intros]
    | apply silent_try_catch; [|intros]
    | match goal with
      | |- silent (if ?b then _ else _) => destruct b
      | |- silent (match ?x with _ => _ end) => destruct x
      end ].

Lemma silent_forEach_log (files : list string) : silent (forEach_log (R := R) files).
Proof. induction files as [|file rest IH]; cbn [forEach_log]; quiet. exact IH. Qed.

(** The client never prints on the error stream and never ends the
    process: its failures are thrown. *)
Lemma silent_client (this : GitHubClient) :
  (forall path branch, silent (checkout this path branch))
  /\ (forall path content message sha branch,
        silent (checkin this path content message sha branch))
  /\ (forall path content message branch,
        silent (createFile this path content message branch))
  /\ (forall path branch, silent (listFiles this path branch)).
Proof.
  repeat split; intros; unfold checkout, checkin, createFile, listFiles; quiet.
Qed.

(** An action is [getClient] followed by a body under the common handler;
    when the body is silent, the action ends cleanly. *)
Lemma ends_cleanly_action (body : GitHubClient -> M R unit) :
  (forall client, silent (body client)) ->
  ends_cleanly (bind getClient (fun client => try_catch (body client) report_and_exit)).
Proof.
  intros Hbody w. destruct (getClient_cases w) as [[token Htok]|Hno].
  - rewrite (bind_getClient_ok _ w token Htok). unfold try_catch.
    destruct (Hbody (configured_client w token) w) as [Herr Hexit].
    destruct (body (configured_client w token) w) as [[[]|e|c] w1]; cbn in *.
    + left. auto.
    + right. split; [reflexivity|]. exists ("Error: " ++ message e)%string, [].
      now rewrite Herr.
    + now contradiction (Hexit c).
  - rewrite (bind_getClient_missing _ w Hno). right. split; [reflexivity|].
    exists "Error: GITHUB_TOKEN environment variable is required",
      ["Set it with: export GITHUB_TOKEN=your_token"].
    cbn. now rewrite <- app_assoc.
Qed.

Lemma actions_end_cleanly_all :
  (forall file options, ends_cleanly (checkout_action (R := R) file options))
  /\ (forall file options, ends_cleanly (checkin_action (R := R) file options))
  /\ (forall file options, ends_cleanly (update_action (R := R) file options))
  /\ (forall directory options, ends_cleanly (list_action (R := R) directory options)).
Proof.
  pose proof silent_client as Hclient.
  repeat split; intros.
  - apply ends_cleanly_action. intros client.
    destruct (Hclient client) as (Hcheckout & _). quiet; try apply Hcheckout.
  - apply ends_cleanly_action. intros client.
    destruct (Hclient client) as (_ & Hcheckin & _). quiet; try apply Hcheckin.
  - apply ends_cleanly_action. intros client.
    destruct (Hclient client) as (Hcheckout & Hcheckin & _).
    apply silent_bind; [quiet | intros _].
    apply silent_bind; [apply Hcheckout | intros result].
    apply silent_bind; [unfold apply_find_replace; quiet | intros st1].
    apply silent_bind; [unfold apply_append; quiet | intros st2].
    apply silent_bind; [unfold apply_prepend; quiet | intros [content modified]].
    destruct modified; cbn [negb]; [|quiet].
    apply silent_bind; [quiet | intros _].
    apply silent_bind; [apply Hcheckin | intros commitResult]. quiet.
  - apply ends_cleanly_action. intros client.
    destruct (Hclient client) as (_ & _ & _ & HlistFiles).
    apply silent_bind; [apply HlistFiles | intros files].
    apply silent_bind; [quiet | intros _]. apply silent_forEach_log.
Qed.

(** The [try] blocks are silent. *)
Lemma silent_bodies (client : GitHubClient) :
  (forall file options, silent (checkout_body (R := R) client file options))
  /\ (forall file options, silent (checkin_body (R := R) client file options))
  /\ (forall file options, silent (update_body (R := R) client file options))
  /\ (forall directory options, silent (list_body (R := R) client directory options)).
Proof.
  destruct (silent_client client) as (Hcheckout & Hcheckin & _ & HlistFiles).
  split; [|split; [|split]]; intros file options.
  - unfold checkout_body. quiet; try apply Hcheckout.
  - unfold checkin_body. quiet; try apply Hcheckin.
  - unfold update_body.
    apply silent_bind; [quiet | intros ? ].
    apply silent_bind; [apply Hcheckout | intros result].
    apply silent_bind; [unfold apply_find_replace; quiet | intros st1].
    apply silent_bind; [unfold apply_append; quiet | intros st2].
    apply silent_bind; [unfold apply_prepend; quiet | intros [content modified]].
    destruct modified; cbn [negb]; [|quiet].
    apply silent_bind; [quiet | intros ? ].
    apply silent_bind; [apply Hcheckin | intros commitResult]. quiet.
  - unfold list_body.
    apply silent_bind; [apply HlistFiles | intros files].
    apply silent_bind; [quiet | intros ? ]. apply silent_forEach_log.
Qed.

(** Under the common handler every error thrown in a silent block is
    reported and ends the process with status 1. *)
Lemma reports_every_error_of_silent (body : GitHubClient -> M R unit) :
  (forall client, silent (body client)) ->
  reports_every_error body
    (bind getClient (fun client => try_catch (body client) report_and_exit)).
Proof.
  intros Hbody w token Htok. cbn zeta.
  rewrite (bind_getClient_ok _ w token Htok). unfold try_catch.
  destruct (Hbody (configured_client w token) w) as [Herr Hexit].
  split; [exact Herr|].
  destruct (body (configured_client w token) w) as [[[]|e|c] w1]; cbn in *.
  - reflexivity.
  - reflexivity.
  - now apply (Hexit c).
Qed.

Lemma token_unique (w : World R) (token token' : string) :
  has_token w token -> has_token w token' -> token' = token.
Proof. intros [H _] [H' _]. congruence. Qed.

Lemma served_is_fulfilled (w : World R) (token file branch : string)
  (item : ContentItem) (encoded : string) :
  serves_file w (configured_client w token) file branch item encoded ->
  fulfilled_by token (w_remote w)
    (CallGetContent (read_request (configured_client w token) file branch)).
Proof. intros (Hanswer & _). exists (DataObject item). exact Hanswer. Qed.

Lemma checkout_action_returns_fulfilled (file : string) (options : CheckoutOptions) :
  returns_only_when_fulfilled (checkout_action (R := R) file options).
Proof.
  intros w token Htok Hret.
  destruct (checkout_served_or_thrown (configured_client w token) file
              (co_branch options) w) as [(item & encoded & Hserved)|(e & He)].
  - rewrite (checkout_action_ok w file options token item encoded Htok Hserved).
    eexists [_]. split; [reflexivity|].
    constructor; [|constructor]. eapply served_is_fulfilled; eassumption.
  - rewrite (checkout_action_failed w file options token e Htok He) in Hret.
    discriminate.
Qed.

Lemma checkin_action_returns_fulfilled (file : string) (options : CheckinOptions) :
  returns_only_when_fulfilled (checkin_action (R := R) file options).
Proof.
  intros w token Htok Hret.
  destruct (w_fs w !! file) as [content|] eqn:Hfile;
    [|rewrite (checkin_action_no_file w file options token Htok Hfile) in Hret;
      discriminate].
  destruct (w_fs w !! (file ++ ".meta.json")) as [metaText|] eqn:Hmeta;
    [|rewrite (checkin_action_no_meta w file options token content Htok Hfile Hmeta)
        in Hret; discriminate].
  destruct (JSON_parse metaText) as [meta|e] eqn:Hparse;
    [|rewrite (checkin_action_bad_meta w file options token content metaText e
                 Htok Hfile Hmeta Hparse) in Hret; discriminate].
  pose proof (checkin_action_run w file options token content metaText meta
                Htok Hfile Hmeta Hparse) as Hrun.
  cbn zeta in Hrun. rewrite Hrun in *. clear Hrun.
  destruct (fst (repos_createOrUpdateFileContents token
                   (checkin_request w token options content meta) (w_remote w)))
    as [commit|e] eqn:Hanswer; [|discriminate].
  exists [CallCreateOrUpdate (checkin_request w token options content meta)].
  split; [reflexivity|]. constructor; [|constructor]. exists commit. exact Hanswer.
Qed.

Lemma update_action_returns_fulfilled (file : string) (options : UpdateOptions) :
  returns_only_when_fulfilled (update_action (R := R) file options).
Proof.
  intros w token Htok Hret.
  destruct (checkout_served_or_thrown (configured_client w token) file
              (uo_branch options) w) as [(item & encoded & Hserved)|(e & He)].
  - pose proof (served_is_fulfilled w token file (uo_branch options) item encoded
                  Hserved) as Hread.
    destruct (update_action_run w file options token item encoded Htok Hserved)
      as (lines & Hrun).
    cbn zeta in Hrun. rewrite Hrun in *. clear Hrun.
    destruct (modified_flag options (base64_decode encoded)).
    + destruct (fst (repos_createOrUpdateFileContents token _ (w_remote w)))
        as [commit|e] eqn:Hanswer; [|discriminate].
      eexists [_; _]. split.
      * cbn. rewrite print_lines_frame. cbn. rewrite <- app_assoc. reflexivity.
      * constructor; [exact Hread|]. constructor; [|constructor].
        exists commit. exact Hanswer.
    + eexists [_]. split.
      * cbn. rewrite print_lines_frame. reflexivity.
      * constructor; [exact Hread | constructor].
  - rewrite (update_action_failed w file options token e Htok He) in Hret.
    discriminate.
Qed.

Lemma list_action_run (w : World R) (directory : option string)
  (options : ListOptions) (token : string) :
  has_token w token ->
  let this := configured_client w token in
  let dir := match directory with Some d => d | None => EmptyString end in
  let read := read_request this dir (lo_branch options) in
  list_action directory options w =
  match repos_getContent token read (w_remote w) with
  | Fulfilled data =>
      (Return tt,
       print_lines
         (("Files in " ++ or_else (Some dir) "root" ++ ":")%string
            :: List.map (fun file => "  " ++ file)
                 match data with
                 | DataObject item => [item_path item]
                 | DataArray items => file_paths items
                 end)
         (sent (CallGetContent read) (w_remote w) w))
  | Rejected e =>
      (Exit 1, print_err ("Error: " ++ message e)
                 (sent (CallGetContent read) (w_remote w) w))
  end.
Proof.
  intros Htok this dir read. unfold list_action.
  rewrite (bind_getClient_ok _ w token Htok). fold this dir.
  unfold try_catch. unfold bind at 1. rewrite listFiles_run. fold read.
  change (this_token this) with token.
  destruct (repos_getContent token read (w_remote w)) as [[items|item]|e];
    [unfold bind, console_log; now rewrite forEach_log_run..|reflexivity].
Qed.

Lemma list_action_returns_fulfilled (directory : option string) (options : ListOptions) :
  returns_only_when_fulfilled (list_action (R := R) directory options).
Proof.
  intros w token Htok Hret.
  pose proof (list_action_run w directory options token Htok) as Hrun.
  cbn zeta in Hrun. rewrite Hrun in *. clear Hrun.
  destruct (repos_getContent token _ (w_remote w)) as [data|e] eqn:Hanswer;
    [|discriminate].
  eexists [_]. split.
  - rewrite print_lines_frame. reflexivity.
  - constructor; [|constructor]. exists data. exact Hanswer.
Qed.

(** X13.  No error escapes an action and none is swallowed.  Each of the
    actions [checkout], [checkin], [update] and [list] is [getClient]
    followed by its [try] block under the common handler, and
    - it either returns with the error stream as it was, or ends the
      process with status 1 after at least one line on the error stream;
    - when its [try] block throws an error, whichever it is, the action
      ends the process with status 1 and has printed "Error: " with the
      message of that very error; when the block returns, the action
      returns in the same world;
    - when the action returns, every request that it sent was fulfilled
      by the remote. *)
Theorem actions_end_cleanly :
  (forall file options,
     ends_honestly (R := R) (fun client => checkout_body client file options)
       (checkout_action file options))
  /\ (forall file options,
        ends_honestly (R := R) (fun client => checkin_body client file options)
          (checkin_action file options))
  /\ (forall file options,
        ends_honestly (R := R) (fun client => update_body client file options)
          (update_action file options))
  /\ (forall directory options,
        ends_honestly (R := R)
          (fun client =>
             list_body client
               (match directory with Some d => d | None => EmptyString end) options)
          (list_action directory options)).
Proof.
  destruct actions_end_cleanly_all as (Hco & Hci & Hup & Hli).
  split; [|split; [|split]]; intros target options;
    (split; [reflexivity|split; [|split]]).
  - apply Hco.
  - apply (reports_every_error_of_silent
             (fun client => checkout_body client target options)).
    intros client. apply silent_bodies.
  - apply checkout_action_returns_fulfilled.
  - apply Hci.
  - apply (reports_every_error_of_silent
             (fun client => checkin_body client target options)).
    intros client. apply silent_bodies.
  - apply checkin_action_returns_fulfilled.
  - apply Hup.
  - apply (reports_every_error_of_silent
             (fun client => update_body client target options)).
    intros client. apply silent_bodies.
  - apply update_action_returns_fulfilled.
  - apply Hli.
  - apply (reports_every_error_of_silent
             (fun client =>
                list_body client
                  (match target with Some d => d | None => EmptyString end) options)).
    intros client. apply silent_bodies.
  - apply list_action_returns_fulfilled.
Qed.

End EndingProperties.

(** ** The client's effects, and [update] as a fused round trip *)

Section FusionProperties.

Context {RT : Runtime} {R : Type} {OK : Octokit R}.

(** X14.  Each method of the client sends exactly one request, whether it
    returns or throws, and does nothing else: the environment, the local
    files and both console streams are as before, and the two reading
    methods leave the remote as it is.  [checkin] sends its marker as
    precondition, [createFile] sends none. *)
Theorem client_sends_one_request (this : GitHubClient) (w : World R) :
  (forall path branch,
     snd (checkout this path branch w)
     = sent (CallGetContent (read_request this path branch)) (w_remote w) w)
  /\ (forall path branch,
        snd (listFiles this path branch w)
        = sent (CallGetContent (read_request this path branch)) (w_remote w) w)
  /\ (forall path content message sha branch,
        exists remote',
          snd (checkin this path content message sha branch w)
          = sent (CallCreateOrUpdate
                    (mkUpdateParams (this_owner this) (this_repo this) path message
                       (base64_encode content) (Some sha) branch)) remote' w)
  /\ (forall path content message branch,
        exists remote',
          snd (createFile this path content message branch w)
          = sent (CallCreateOrUpdate
                    (mkUpdateParams (this_owner this) (this_repo this) path message
                       (base64_encode content) None branch)) remote' w).
Proof.
  repeat split; intros.
  - now rewrite checkout_run.
  - now rewrite listFiles_run.
  - rewrite checkin_run. eexists. reflexivity.
  - rewrite createFile_run. eexists. reflexivity.
Qed.

(** After a [checkout] command and an edit of the output file, the
    [checkin] command sends the edited text under the fetched marker. *)
Lemma checkin_after_checkout_and_edit (w : World R) (file : string)
  (co : CheckoutOptions) (ci : CheckinOptions) (token : string)
  (item : ContentItem) (encoded edited : string) :
  has_token w token ->
  let this := configured_client w token in
  serves_file w this file (co_branch co) item encoded ->
  let meta := mkMeta (item_path item) (item_sha item) (Some (co_branch co))
                (w_now w) None None in
  JSON_parse (JSON_stringify meta) = Fulfilled meta ->
  let out := or_else (co_output co) (path_basename file) in
  let w2 := write_file out edited (snd (checkout_action file co w)) in
  w_calls (snd (checkin_action out ci w2))
  = (w_calls w
       ++ [CallGetContent (read_request this file (co_branch co));
           CallCreateOrUpdate
             (mkUpdateParams (this_owner this) (this_repo this) (item_path item)
                (ci_message ci) (base64_encode edited) (Some (item_sha item))
                (or_else (or_opt (ci_branch ci) (Some (co_branch co))) "main"))])%list.
Proof.
  intros Htok this Hserved meta Hparse out w2.
  assert (Hw2 : w2 = write_file out edited (snd (checkout_action file co w)))
    by reflexivity.
  clearbody w2.
  rewrite (checkout_action_ok w file co token item encoded Htok Hserved) in Hw2.
  fold this in Hw2. change (output_path file co) with out in Hw2. cbn [snd] in Hw2.
  assert (Htok2 : has_token w2 token) by (rewrite Hw2; exact Htok).
  assert (Hfile : w_fs w2 !! out = Some edited).
  { rewrite Hw2. cbn. apply lookup_insert_eq. }
  assert (Hmeta : w_fs w2 !! (out ++ ".meta.json") = Some (JSON_stringify meta)).
  { rewrite Hw2. cbn. rewrite lookup_insert_ne.
    - apply lookup_insert_eq.
    - intros E. symmetry in E. now apply sidecar_path_differs in E. }
  rewrite (checkin_action_run w2 out ci token edited
             (JSON_stringify meta) meta Htok2 Hfile Hmeta Hparse).
  cbn zeta.
  assert (Hcalls : w_calls w2
                   = (w_calls w ++ [CallGetContent (read_request this file (co_branch co))])%list)
    by (rewrite Hw2; reflexivity).
  assert (Hclient : configured_client w2 token = this) by (rewrite Hw2; reflexivity).
  unfold checkin_request. rewrite Hclient.
  destruct (fst (repos_createOrUpdateFileContents _ _ _)); cbn;
    rewrite Hcalls, <- app_assoc; reflexivity.
Qed.

(** X15.  [update] is the fusion of the round trip: when some transform
    changes the content, [update] sends the very requests that the
    [checkout] command, the same transformations applied to the output
    file, and the [checkin] command with the same message send, provided
    the remote reports the file under the path that was asked for, the
    branch is named, and the sidecar text parses back to the record
    written. *)
Theorem update_fuses_checkout_edit_checkin (w : World R) (file : string)
  (options : UpdateOptions) (output : option string) (token : string)
  (item : ContentItem) (encoded : string) :
  has_token w token ->
  let this := configured_client w token in
  serves_file w this file (uo_branch options) item encoded ->
  item_path item = file ->
  uo_branch options <> EmptyString ->
  let content := base64_decode encoded in
  change_made options content ->
  JSON_parse (JSON_stringify
                (mkMeta (item_path item) (item_sha item) (Some (uo_branch options))
                   (w_now w) None None))
  = Fulfilled (mkMeta (item_path item) (item_sha item) (Some (uo_branch options))
                 (w_now w) None None) ->
  let co := mkCheckoutOptions (uo_branch options) output in
  let ci := mkCheckinOptions (uo_message options) None in
  let out := or_else output (path_basename file) in
  let edited := write_file out (transformed options content)
                  (snd (checkout_action file co w)) in
  w_calls (snd (update_action file options w))
  = w_calls (snd (checkin_action out ci edited)).
Proof.
  intros Htok this Hserved Hpath Hbranch content Hchange Hparse co ci out edited.
  pose proof (checkin_after_checkout_and_edit w file co ci token item encoded
                (transformed options content) Htok Hserved Hparse) as Hround.
  cbn zeta in Hround.
  pose proof (update_action_calls w file options token item encoded Htok Hserved)
    as Hcalls.
  cbn zeta in Hcalls. fold this content in Hcalls.
  apply modified_flag_spec in Hchange. rewrite Hchange in Hcalls. rewrite Hcalls.
  symmetry. etransitivity; [exact Hround|].
  unfold update_request, read_request. cbn [co_branch ci_message ci_branch co ci].
  rewrite Hpath. apply is_empty_false in Hbranch.
  unfold or_opt. cbn. rewrite Hbranch. reflexivity.
Qed.

End FusionProperties.

(** ** The further properties at work on the sample worlds *)

Lemma commands_need_credential_witness :
  truthy (w_env anonymous_world !! "GITHUB_TOKEN") = false
  /\ checkin_action (RT := NodeDouble.runtime) "hello.txt" sample_checkin_options
       anonymous_world
     = stopped_without_credential anonymous_world
  /\ w_fs (snd (stopped_without_credential anonymous_world)) = sample_files 5.
Proof.
  assert (H : truthy (w_env anonymous_world !! "GITHUB_TOKEN") = false) by reflexivity.
  split; [exact H|].
  destruct (commands_need_credential (RT := NodeDouble.runtime) anonymous_world H)
    as (_ & Hcheckin & _ & _ & _ & _ & Hfs & _).
  split; [apply Hcheckin | exact Hfs].
Defined.

Lemma sample_checkout_not_found :
  fst (checkout (RT := NodeDouble.runtime) sample_client "hello.txt" "main"
         (sample_world ∅ empty_remote))
  = Throw (new_Error "File not found: hello.txt").
Proof. reflexivity. Defined.

Lemma update_stops_at_failed_checkout_witness :
  let end_ := update_action (RT := NodeDouble.runtime) "hello.txt"
                sample_update_options (sample_world ∅ empty_remote) in
  fst end_ = Exit 1
  /\ w_calls (snd end_) = [sample_read]
  /\ w_stderr (snd end_) = ["Error: File not found: hello.txt"].
Proof.
  intros end_.
  destruct (update_stops_at_failed_checkout (RT := NodeDouble.runtime)
              (sample_world ∅ empty_remote) "hello.txt" sample_update_options
              "ghp_sample" (new_Error "File not found: hello.txt")
              (sample_has_token _ _) sample_checkout_not_found)
    as (Hexit & Hcalls & _ & Herr & _).
  repeat split; assumption.
Defined.

Lemma update_same_replacement_is_no_change_witness :
  let end_ := update_action (RT := NodeDouble.runtime) "hello.txt"
                same_replacement_options (sample_world ∅ sample_remote) in
  occurs "h" "hi" = true
  /\ fst end_ = Return tt
  /\ w_calls (snd end_) = [sample_read].
Proof.
  intros end_. split; [reflexivity|].
  destruct (update_same_replacement_is_no_change (RT := NodeDouble.runtime)
              (sample_world ∅ sample_remote) "hello.txt" same_replacement_options
              "ghp_sample" sample_item "aGk=" "h" (sample_has_token _ _)
              sample_serves_file eq_refl ltac:(discriminate) eq_refl eq_refl eq_refl)
    as (_ & Hret & Hcalls & _).
  split; [exact Hret | exact Hcalls].
Defined.

Lemma update_replacement_checks_in_witness :
  occurs "h" "hi" = true
  /\ replace_all "h" EmptyString "hi" <> "hi"
  /\ w_calls (snd (update_action (RT := NodeDouble.runtime) "hello.txt"
                     deleting_options (sample_world ∅ sample_remote)))
     = [sample_read;
        CallCreateOrUpdate
          (mkUpdateParams "leeasling-gradial" "grady-challenge" "hello.txt"
             "Update content" (NodeDouble.encode "i") (Some (Remote.marker 5)) "main")].
Proof.
  split; [reflexivity|].
  exact (update_replacement_checks_in (RT := NodeDouble.runtime)
           (sample_world ∅ sample_remote) "hello.txt" deleting_options
           "ghp_sample" sample_item "aGk=" "h" EmptyString (sample_has_token _ _)
           sample_serves_file eq_refl ltac:(discriminate) eq_refl ltac:(discriminate)
           eq_refl).
Defined.

Lemma checkout_action_writes_file_and_sidecar_witness :
  let end_ := checkout_action (RT := NodeDouble.runtime) "hello.txt"
                sample_checkout_options (sample_world ∅ sample_remote) in
  fst end_ = Return tt
  /\ w_fs (snd end_) !! "hello.txt" = Some "hi"
  /\ w_fs (snd end_) !! "hello.txt.meta.json"
     = Some (NodeDouble.stringify checked_out_meta)
  /\ w_calls (snd end_) = [sample_read].
Proof.
  intros end_.
  destruct (checkout_action_writes_file_and_sidecar (RT := NodeDouble.runtime)
              (sample_world ∅ sample_remote) "hello.txt" sample_checkout_options
              "ghp_sample" sample_item "aGk=" (sample_has_token _ _)
              sample_serves_file)
    as (Hret & Hfile & Hmeta & _ & Hcalls & _).
  repeat split; assumption.
Defined.

Lemma checkout_action_failure_writes_nothing_witness :
  let end_ := checkout_action (RT := NodeDouble.runtime) "hello.txt"
                sample_checkout_options (sample_world (sample_files 5) empty_remote) in
  fst end_ = Exit 1
  /\ w_fs (snd end_) = sample_files 5
  /\ w_stderr (snd end_) = ["Error: File not found: hello.txt"].
Proof.
  intros end_.
  assert (H : fst (checkout (RT := NodeDouble.runtime) sample_client "hello.txt" "main"
                     (sample_world (sample_files 5) empty_remote))
              = Throw (new_Error "File not found: hello.txt"))
    by (vm_compute; reflexivity).
  destruct (checkout_action_failure_writes_nothing (RT := NodeDouble.runtime)
              (sample_world (sample_files 5) empty_remote) "hello.txt"
              sample_checkout_options "ghp_sample"
              (new_Error "File not found: hello.txt") (sample_has_token _ _) H)
    as (Hexit & Hfs & Herr & _).
  repeat split; assumption.
Defined.

Lemma sample_sidecar_parses :
  NodeDouble.parse (NodeDouble.stringify checked_out_meta) = Fulfilled checked_out_meta.
Proof. vm_compute. reflexivity. Defined.

Lemma checkout_then_checkin_sends_fetched_marker_witness :
  let w1 := snd (checkout_action (RT := NodeDouble.runtime) "hello.txt"
                   sample_checkout_options (sample_world ∅ sample_remote)) in
  w_calls (snd (checkin_action (RT := NodeDouble.runtime) "hello.txt"
                  sample_checkin_options w1))
  = [sample_read;
     CallCreateOrUpdate
       (mkUpdateParams "leeasling-gradial" "grady-challenge" "hello.txt"
          "Update content" (NodeDouble.encode "hi") (Some (Remote.marker 5)) "main")].
Proof.
  exact (checkout_then_checkin_sends_fetched_marker (RT := NodeDouble.runtime)
           (sample_world ∅ sample_remote) "hello.txt" sample_checkout_options
           sample_checkin_options "ghp_sample" sample_item "aGk="
           (sample_has_token _ _) sample_serves_file sample_sidecar_parses).
Defined.

Lemma checkin_touches_only_sidecar_witness :
  let w := sample_world (sample_files 5) sample_remote in
  let end_ := checkin_action (RT := NodeDouble.runtime) "hello.txt"
                sample_checkin_options w in
  "notes.txt" <> "hello.txt.meta.json"
  /\ w_fs (snd end_) !! "notes.txt" = None
  /\ w_fs (snd end_) !! "hello.txt" = Some "hi there".
Proof.
  intros w end_.
  assert (H : "notes.txt" <> "hello.txt.meta.json") by discriminate.
  split; [exact H|].
  destruct (checkin_touches_only_sidecar (RT := NodeDouble.runtime) w "hello.txt"
              sample_checkin_options) as (Hother & Hfile).
  split; [exact (Hother "notes.txt" H) | exact Hfile].
Defined.

Lemma checkin_exit_status_witness :
  let w := sample_world (sample_files 3) sample_remote in
  let end_ := checkin_action (RT := NodeDouble.runtime) "hello.txt"
                sample_checkin_options w in
  exit_status (fst end_) = 1 /\ w_fs (snd end_) = sample_files 3.
Proof.
  intros w end_.
  assert (H : exit_status (fst end_) = 1) by (vm_compute; reflexivity).
  split; [exact H|].
  destruct (checkin_exit_status (RT := NodeDouble.runtime) w "hello.txt"
              sample_checkin_options) as (_ & Hfail & _).
  exact (Hfail H).
Defined.

Lemma listFiles_agrees_with_checkout_witness :
  let w := sample_world ∅ sample_remote in
  fst (checkout (RT := NodeDouble.runtime) sample_client "hello.txt" "main" w)
  = Return (mkFileContent "hi" (Remote.marker 5) "hello.txt" "base64")
  /\ fst (listFiles sample_client "hello.txt" "main" w) = Return ["hello.txt"].
Proof.
  intros w.
  assert (H : fst (checkout (RT := NodeDouble.runtime) sample_client "hello.txt"
                     "main" w)
              = Return (mkFileContent "hi" (Remote.marker 5) "hello.txt" "base64"))
    by reflexivity.
  split; [exact H|].
  destruct (listFiles_agrees_with_checkout (RT := NodeDouble.runtime) sample_client
              "hello.txt" "main" w) as (Hagree & _).
  exact (Hagree _ H).
Defined.

Lemma list_action_prints_listing_witness :
  let w := sample_world ∅ listing_remote in
  let end_ := list_action (Some "docs") (mkListOptions "main") w in
  fst (listFiles sample_client "docs" "main" w) = Return ["docs/a.md"; "docs/c.md"]
  /\ fst end_ = Return tt
  /\ w_stdout (snd end_) = ["Files in docs:"; "  docs/a.md"; "  docs/c.md"].
Proof.
  intros w end_.
  assert (H : fst (listFiles sample_client "docs" "main" w)
              = Return ["docs/a.md"; "docs/c.md"]) by reflexivity.
  split; [exact H|].
  destruct (list_action_prints_listing w (Some "docs") (mkListOptions "main")
              "ghp_sample" (sample_has_token _ _)) as (Hok & _).
  subst end_. rewrite (Hok _ H). split; reflexivity.
Defined.

Lemma update_fuses_checkout_edit_checkin_witness :
  let w := sample_world ∅ sample_remote in
  let edited := write_file "hello.txt" ">> Hi!"
                  (snd (checkout_action (RT := NodeDouble.runtime) "hello.txt"
                          sample_checkout_options w)) in
  change_made sample_update_options "hi"
  /\ w_calls (snd (update_action (RT := NodeDouble.runtime) "hello.txt"
                     sample_update_options w))
     = w_calls (snd (checkin_action (RT := NodeDouble.runtime) "hello.txt"
                       sample_checkin_options edited)).
Proof.
  intros w edited.
  assert (H : change_made sample_update_options "hi")
    by (left; vm_compute; discriminate).
  split; [exact H|].
  exact (update_fuses_checkout_edit_checkin (RT := NodeDouble.runtime) w "hello.txt"
           sample_update_options None "ghp_sample" sample_item "aGk="
           (sample_has_token _ _) sample_serves_file eq_refl ltac:(discriminate) H
           sample_sidecar_parses).
Defined.

(** The stale checkin again: the [try] block throws the remote's conflict,
    and the action reports that very error and ends with status 1. *)
Lemma actions_end_cleanly_witness :
  let w := sample_world (sample_files 3) sample_remote in
  let block := checkin_body (RT := NodeDouble.runtime)
                 (configured_client w "ghp_sample") "hello.txt"
                 sample_checkin_options w in
  let end_ := checkin_action (RT := NodeDouble.runtime) "hello.txt"
                sample_checkin_options w in
  fst block = Throw (Remote.conflict "hello.txt" (Remote.marker 3))
  /\ end_ = (Exit 1, print_err "Error: hello.txt does not match 3" (snd block))
  /\ w_stderr (snd end_) = ["Error: hello.txt does not match 3"].
Proof.
  intros w block end_.
  assert (Hthrown : fst block = Throw (Remote.conflict "hello.txt" (Remote.marker 3)))
    by (vm_compute; reflexivity).
  split; [exact Hthrown|].
  destruct (actions_end_cleanly (RT := NodeDouble.runtime) (R := SpecRemote))
    as (_ & Hcheckin & _).
  destruct (Hcheckin "hello.txt" sample_checkin_options) as (_ & _ & Hreports & _).
  destruct (Hreports w "ghp_sample" (sample_has_token _ _)) as (_ & Hend).
  fold block in Hend. rewrite Hthrown in Hend.
  assert (Hequal : end_ = (Exit 1, print_err "Error: hello.txt does not match 3"
                                     (snd block))) by exact Hend.
  split; [exact Hequal|]. rewrite Hequal. vm_compute. reflexivity.
Defined.
